(** * chef-waiter: the HTTP engine, embedded and checked against its specification

    The development follows [webengine/httpengine.go].  Handlers are pure
    functions from the engine (state table, worker, whitelist) and the request
    to a response and the engine afterwards.  The state table and the worker
    are interfaces of packages [internalstate] and [chefrunner]; they are
    modelled in their own modules below. *)

From Stdlib Require Import ZArith String Ascii List Bool Lia.
From Stdlib Require Import Decimal DecimalString DecimalPos.
From stdpp Require Import gmap strings.
Import ListNotations.

Local Open Scope Z_scope.

(** ** Machine integers

    On the platforms the service is built for, Go's [int] and [int64] are both
    64-bit two's complement; arithmetic wraps around silently. *)

Module GoInt.

Definition intSize : Z := 64.
Definition minInt : Z := - 2 ^ (intSize - 1).
Definition maxInt : Z := 2 ^ (intSize - 1) - 1.

Definition fits (z : Z) : bool := (minInt <=? z) && (z <=? maxInt).

(** Two's complement wrap-around of a mathematical integer. *)
Definition wrap (z : Z) : Z := (z - minInt) mod 2 ^ intSize + minInt.

Definition add (a b : Z) : Z := wrap (a + b).
Definition mul (a b : Z) : Z := wrap (a * b).
(** Go's integer division truncates toward zero. *)
Definition div (a b : Z) : Z := wrap (Z.quot a b).

End GoInt.

(** ** strconv.Atoi

    An optional sign followed by at least one decimal digit and nothing else;
    a value outside the range of [int] is an error as well. *)

Module strconv.

Definition splitSign (s : string) : bool * string :=
  match s with
  | String "+"%char r => (false, r)
  | String "-"%char r => (true, r)
  | _ => (false, s)
  end.

Definition Atoi (s : string) : option Z :=
  let '(neg, digits) := splitSign s in
  match digits with
  | EmptyString => None
  | _ =>
      match NilEmpty.uint_of_string digits with
      | None => None
      | Some u =>
          let v := if neg then - Z.of_uint u else Z.of_uint u in
          if GoInt.fits v then Some v else None
      end
  end.

(** The decimal text of a positive number, as a client writes it in a path. *)
Definition FormatPos (p : positive) : string :=
  NilEmpty.string_of_uint (Pos.to_uint p).

End strconv.

(** ** bytes and io *)

Module bytes.

(** [bytes.TrimRight s cutset]: [s] without its trailing bytes that occur in
    [cutset]. *)
Fixpoint TrimRight (s cutset : list ascii) : list ascii :=
  match s with
  | [] => []
  | c :: r =>
      match TrimRight r cutset with
      | [] => if existsb (Ascii.eqb c) cutset then [] else [c]
      | r' => c :: r'
      end
  end.

End bytes.

Module io.

Inductive error := EOF | Failure.

(** A request body as the transport hands it over: the data arrives in
    pieces, and one [Read] call returns at most what is at hand (up to
    len(p) bytes).  [Broken] stands for a transport error (reset connection,
    malformed chunk framing). *)
Record Reader := { Pending : list (list ascii); Broken : bool }.

(** One [Read] into a buffer of [cap] bytes: the bytes stored and the error. *)
Definition Read (b : Reader) (cap : nat) : list ascii * option error :=
  if Broken b then ([], Some Failure)
  else match Pending b with
       | [] => ([], Some EOF)
       | c :: _ => (firstn cap c, None)
       end.

(** Everything the client sent. *)
Definition Payload (b : Reader) : list ascii := concat (Pending b).

End io.

(** ** Package internalstate *)

Module internalstate.

Inductive RunStatus := Registered | Running | Complete | Failed.

(** Modelled from the spec: the run record of section 3 (the type behind
    [StateTableReadWriter.Read] is not among the sources): identity, status,
    exit code with the sentinel for an unfinished run, start timestamp,
    origin flag and the command text of a custom run. *)
Record RunRecord := {
  GUID : string;
  Status : RunStatus;
  ExitCode : Z;
  StartTime : Z;
  OnDemand : bool;
  Command : option string
}.

(** Modelled from the spec: the job table and the scheduler state of section 3
    behind the [StateTableReadWriter] interface, whose implementation is not
    among the sources.  The interval is kept in seconds, the timestamps in
    epoch seconds, 0 as maintenance end meaning no maintenance. *)
Record StateTable := {
  Jobs : gmap string RunRecord;
  PeriodicRuns : bool;
  ChefRunTimer : Z;
  LastRunStartTime : Z;
  MaintenanceTimeEnd : Z;
  RunLock : bool;
  LastRunGUID : string
}.

(** Modelled from the spec: [getLockStatus() -> bool], the run-lock flag of
    the scheduler state ([StateTableReadWriter.ReadRunLock] is not among the
    sources, as none of the accessors below is). *)
Definition ReadRunLock (st : StateTable) : bool := RunLock st.

(** Modelled from the spec: [setLock(bool)] stores the run-lock flag. *)
Definition LockRuns (b : bool) (st : StateTable) : StateTable :=
  {| Jobs := Jobs st; PeriodicRuns := PeriodicRuns st;
     ChefRunTimer := ChefRunTimer st; LastRunStartTime := LastRunStartTime st;
     MaintenanceTimeEnd := MaintenanceTimeEnd st; RunLock := b;
     LastRunGUID := LastRunGUID st |}.

(** Modelled from the spec: [read(identifier)] gives the record or NotFound. *)
Definition Read (guid : string) (st : StateTable) : option RunRecord :=
  Jobs st !! guid.

(** Modelled from the spec: the last periodic fire timestamp of the scheduler
    state, in epoch seconds. *)
Definition GetlastRunStartTime (st : StateTable) : Z := LastRunStartTime st.

(** Modelled from the spec: [getRunInterval() -> seconds]. *)
Definition ReadChefRunTimer (st : StateTable) : Z := ChefRunTimer st.

(** Modelled from the spec: [setRunInterval(positiveSeconds)], the argument is
    stored as it comes. *)
Definition WriteChefRunTimer (i : Z) (st : StateTable) : StateTable :=
  {| Jobs := Jobs st; PeriodicRuns := PeriodicRuns st;
     ChefRunTimer := i; LastRunStartTime := LastRunStartTime st;
     MaintenanceTimeEnd := MaintenanceTimeEnd st; RunLock := RunLock st;
     LastRunGUID := LastRunGUID st |}.

(** Modelled from the spec: the maintenance end timestamp of the scheduler
    state. *)
Definition ReadMaintenanceTimeEnd (st : StateTable) : Z := MaintenanceTimeEnd st.

(** Modelled from the spec: the store of the maintenance end timestamp. *)
Definition WriteMaintenanceTimeEnd (t : Z) (st : StateTable) : StateTable :=
  {| Jobs := Jobs st; PeriodicRuns := PeriodicRuns st;
     ChefRunTimer := ChefRunTimer st; LastRunStartTime := LastRunStartTime st;
     MaintenanceTimeEnd := t; RunLock := RunLock st;
     LastRunGUID := LastRunGUID st |}.

(** Modelled from the spec: section 4.3, maintenance holds while the
    maintenance end-time is greater than now. *)
Definition InMaintenceMode (now : Z) (st : StateTable) : bool :=
  now <? MaintenanceTimeEnd st.

(** Modelled from the spec: section 4.1, a new record enters the table under
    its identifier. *)
Definition Add (r : RunRecord) (st : StateTable) : StateTable :=
  {| Jobs := <[GUID r := r]> (Jobs st); PeriodicRuns := PeriodicRuns st;
     ChefRunTimer := ChefRunTimer st; LastRunStartTime := LastRunStartTime st;
     MaintenanceTimeEnd := MaintenanceTimeEnd st; RunLock := RunLock st;
     LastRunGUID := LastRunGUID st |}.



(** Modelled from the spec: [getPeriodicRunsEnabled() -> bool] and
    [setPeriodicRunsEnabled(bool)], the load and the store of the flag. *)
Definition ReadPeriodicRuns (st : StateTable) : bool := PeriodicRuns st.

Definition WritePeriodicRuns (b : bool) (st : StateTable) : StateTable :=
  {| Jobs := Jobs st; PeriodicRuns := b;
     ChefRunTimer := ChefRunTimer st; LastRunStartTime := LastRunStartTime st;
     MaintenanceTimeEnd := MaintenanceTimeEnd st; RunLock := RunLock st;
     LastRunGUID := LastRunGUID st |}.

(** Modelled from the spec: [getLastRunIdentifier() -> identifier | empty]. *)
Definition ReadLastRunGUID (st : StateTable) : string := LastRunGUID st.

(** Modelled from the spec: [getAllRuns()], every record of the table. *)
Definition ReadAllJobs (st : StateTable) : gmap string RunRecord := Jobs st.

End internalstate.

(** ** Package chefrunner *)

Module chefrunner.
Import internalstate.

(** Modelled from the spec: the queue slot of section 3, at most one admitted
    run that has not started (the [Worker] implementation is not among the
    sources). *)
Record Worker := { Slot : option string }.

(** The exit code of a run that has not finished (the README shows 99). *)
Definition exitCodeUnset : Z := 99.

(** Modelled from the spec: section 4.1.  Coalescing rule: a pending record in
    the slot is returned unchanged.  Otherwise a record with a new identifier
    ([draw], the random 128-bit identifier this call generates), status
    registered, the sentinel exit code, the current timestamp and the origin
    flag goes into the table and into the slot. *)
Definition requestRun (onDemand : bool) (custom : option string)
    (draw : string) (stamp : Z) (w : Worker) (st : StateTable)
  : string * Worker * StateTable :=
  match Slot w with
  | Some queued => (queued, w, st)
  | None =>
      let r := {| GUID := draw; Status := Registered;
                  ExitCode := exitCodeUnset; StartTime := stamp;
                  OnDemand := onDemand; Command := custom |} in
      (draw, {| Slot := Some draw |}, Add r st)
  end.

(** Modelled from the spec: [requestOnDemandRun() -> identifier]. *)
Definition OnDemandRun := requestRun true None.

(** Modelled from the spec: [requestCustomRun(text) -> identifier], a run
    requested through the API that carries its command text. *)
Definition CustomRun (text : string) := requestRun true (Some text).



End chefrunner.

(** ** Package webengine (webengine/httpengine.go) *)

Module webengine.
Import internalstate chefrunner.

Record customRunWhitelist := { whitelist : list string; use : bool }.

(** The fields of [HTTPEngine] that the handlers read or change. *)
Record HTTPEngine := {
  state : StateTable;
  worker : Worker;
  whitelists : customRunWhitelist
}.

(** [New]: no whitelist in use at the start. *)
Definition New (st : StateTable) (w : Worker) : HTTPEngine :=
  {| state := st; worker := w;
     whitelists := {| whitelist := []; use := false |} |}.

Definition SetWhitelist (wl : list string) (e : HTTPEngine) : HTTPEngine :=
  {| state := state e; worker := worker e;
     whitelists := {| whitelist := wl; use := true |} |}.

Definition withState (st : StateTable) (e : HTTPEngine) : HTTPEngine :=
  {| state := st; worker := worker e; whitelists := whitelists e |}.

Definition StatusOK : Z := 200.
Definition StatusBadRequest : Z := 400.
Definition StatusForbidden : Z := 403.
Definition StatusNotFound : Z := 404.
Definition StatusInternalServerError : Z := 500.

(** What a handler prints, one constructor per format of the source:
    the error object with its message, the marshalled result of [state.Read],
    the epoch of the next run, the interval in minutes, the maintenance status,
    the maintenance end time, the lock. *)
Inductive Output :=
| Nothing
| ErrorJSON (msg : string)
| RunJSON (run : option RunRecord)
| NextRunJSON (epoch : Z)
| IntervalJSON (minutes : Z)
| MaintenanceJSON (endTime : Z) (inMaintenance : bool)
| EndTimeJSON (endTime : Z)
| LockedJSON (locked : bool).

(** The response: the status given to [WriteHeader], if it was called, and
    the output. *)
Record Response := { Header : option Z; Out : Output }.

(** net/http sends 200 when the handler never calls [WriteHeader]. *)
Definition StatusCode (r : Response) : Z :=
  match Header r with
  | Some c => c
  | None => StatusOK
  end.

Definition reply (o : Output) : Response := {| Header := None; Out := o |}.
Definition replyWith (c : Z) (o : Output) : Response :=
  {| Header := Some c; Out := o |}.

(** [json.MarshalIndent] of what [state.Read] returns; a record of strings,
    integers and booleans always encodes. *)
Definition jsonMarshal (x : option RunRecord) : option Output :=
  Some (RunJSON x).

(** The parts of [*http.Request] the handlers look at.  [url.Values] keeps at
    least one value under every key it holds: the first value and the rest. *)
Record Request := {
  Query : gmap string (string * list string);
  Body : io.Reader
}.

(** What the handlers draw from outside: the identifier a new run would get,
    the timestamp of a new record, the wall clock in epoch seconds. *)
Record Env := { draw : string; stamp : Z; now : Z }.

Definition registerChefRun (env : Env) (e : HTTPEngine)
  : Response * HTTPEngine :=
  if ReadRunLock (state e) then
    (replyWith StatusForbidden (ErrorJSON "Chefwaiter is locked"), e)
  else
    let '(guid, w, st) :=
      OnDemandRun (draw env) (stamp env) (worker e) (state e) in
    let e' := {| state := st; worker := w; whitelists := whitelists e |} in
    match jsonMarshal (Read guid st) with
    | None =>
        (replyWith StatusInternalServerError
           (ErrorJSON "Failed to read guid status"), e')
    | Some jsonBytes => (reply jsonBytes, e')
    end.

(** The lock is checked unless the first value of the query parameter
    [force] is [true]. *)
Definition checklock (r : Request) : bool :=
  match Query r !! "force"%string with
  | Some (value0, _) => if String.eqb value0 "true" then false else true
  | None => true
  end.

Definition NUL : ascii := Ascii.zero.

(** The buffer of 513 zero bytes after one [Read] stored [data] in front. *)
Definition bodySlurp (data : list ascii) : list ascii :=
  data ++ repeat NUL (513 - length data).

Definition customRunText (data : list ascii) : string :=
  string_of_list_ascii (bytes.TrimRight (bodySlurp data) [NUL]).

(** The loop over the whitelist. *)
Definition matched (text : string) (wl : list string) : bool :=
  existsb (String.eqb text) wl.

Definition registerChefCustomRun (env : Env) (r : Request) (e : HTTPEngine)
  : Response * HTTPEngine :=
  if checklock r && ReadRunLock (state e) then
    (replyWith StatusForbidden (ErrorJSON "Chefwaiter is locked"), e)
  else
    let '(data, err) := io.Read (Body r) 513 in
    let n := length data in
    match err with
    | Some io.Failure => (replyWith StatusBadRequest Nothing, e)
    | _ =>
        if (512 <? n)%nat then
          (replyWith StatusBadRequest
             (ErrorJSON "Body sent is too large. Max size 512 bytes"), e)
        else
          let text := customRunText data in
          if use (whitelists e) && negb (matched text (whitelist (whitelists e)))
          then
            (replyWith StatusForbidden
               (ErrorJSON ("Whitelist does not contain '" +:+ text +:+ "'")), e)
          else
            let '(guid, w, st) :=
              CustomRun text (draw env) (stamp env) (worker e) (state e) in
            let e' :=
              {| state := st; worker := w; whitelists := whitelists e |} in
            match jsonMarshal (Read guid st) with
            | None =>
                (replyWith StatusInternalServerError
                   (ErrorJSON "Failed to read guid status"), e')
            | Some jsonbytes => (reply jsonbytes, e')
            end
    end.

Definition getChefStatus (guid : string) (e : HTTPEngine) : Response :=
  match jsonMarshal (Read guid (state e)) with
  | None =>
      replyWith StatusInternalServerError
        (ErrorJSON "Failed to read guid status")
  | Some jsonBytes => reply jsonBytes
  end.

Definition getNextChefRun (e : HTTPEngine) : Response :=
  let epoch :=
    GoInt.add (GetlastRunStartTime (state e)) (ReadChefRunTimer (state e)) in
  replyWith StatusOK (NextRunJSON epoch).

Definition setChefRunInterval (i : string) (e : HTTPEngine)
  : Response * HTTPEngine :=
  let notPositive :=
    replyWith StatusBadRequest
      (ErrorJSON "Only a positive number will be accepted") in
  match strconv.Atoi i with
  | None => (notPositive, e)
  | Some i =>
      if i <? 0 then (notPositive, e)
      else if i <=? 0 then (notPositive, e)
      else (reply Nothing, withState (WriteChefRunTimer i (state e)) e)
  end.

Definition getChefRunInterval (e : HTTPEngine) : Response :=
  let i := ReadChefRunTimer (state e) in
  reply (IntervalJSON (GoInt.div i 60)).

Definition getChefMaintenance (env : Env) (e : HTTPEngine) : Response :=
  reply (MaintenanceJSON (ReadMaintenanceTimeEnd (state e))
                         (InMaintenceMode (now env) (state e))).

Definition setChefMaintenance (env : Env) (i : string) (e : HTTPEngine)
  : Response * HTTPEngine :=
  match strconv.Atoi i with
  | None => (replyWith StatusBadRequest Nothing, e)
  | Some minutes =>
      let endTime := GoInt.add (now env) (GoInt.mul minutes 60) in
      (reply (EndTimeJSON endTime),
       withState (WriteMaintenanceTimeEnd endTime (state e)) e)
  end.

Definition removeChefMaintenance (e : HTTPEngine) : Response * HTTPEngine :=
  let e' := withState (WriteMaintenanceTimeEnd 0 (state e)) e in
  (reply (EndTimeJSON (ReadMaintenanceTimeEnd (state e'))), e').

Definition getChefLock (e : HTTPEngine) : Response :=
  reply (LockedJSON (ReadRunLock (state e))).

Definition setChefLock (e : HTTPEngine) : Response * HTTPEngine :=
  let e' := withState (LockRuns true (state e)) e in
  (reply (LockedJSON (ReadRunLock (state e'))), e').

Definition removeChefLock (e : HTTPEngine) : Response * HTTPEngine :=
  let e' := withState (LockRuns false (state e)) e in
  (reply (LockedJSON (ReadRunLock (state e'))), e').


End webengine.

(** ** The engine together with its worker *)

Module system.
Import internalstate chefrunner webengine.


(** The last stage of [registerChefCustomRun], reached by a text that got
    past the lock, the size bound and the whitelist: the worker is asked for a
    custom run and the record of the returned identifier is printed. *)
Definition admitCustomRun (env : Env) (text : string) (e : HTTPEngine)
  : Response * HTTPEngine :=
  let '(guid, w, st) :=
    CustomRun text (draw env) (stamp env) (worker e) (state e) in
  (reply (RunJSON (Read guid st)),
   {| state := st; worker := w; whitelists := whitelists e |}).

(** The stages of [registerChefCustomRun] behind the lock gate: the single
    read of the body, the size bound, the whitelist, the admission. *)
Definition tooLarge : Response :=
  replyWith StatusBadRequest
    (ErrorJSON "Body sent is too large. Max size 512 bytes").

Definition notWhitelisted (text : string) : Response :=
  replyWith StatusForbidden
    (ErrorJSON ("Whitelist does not contain '" +:+ text +:+ "'")).

Definition checkedCustomRun (env : Env) (r : Request) (e : HTTPEngine)
  : Response * HTTPEngine :=
  let '(data, err) := io.Read (Body r) 513 in
  match err with
  | Some io.Failure => (replyWith StatusBadRequest Nothing, e)
  | _ =>
      if (512 <? length data)%nat then (tooLarge, e)
      else
        let text := customRunText data in
        if use (whitelists e) && negb (matched text (whitelist (whitelists e)))
        then (notWhitelisted text, e)
        else admitCustomRun env text e
  end.


End system.

(** ** Sample values *)

Module sample.
Import internalstate chefrunner webengine.

Definition table : StateTable :=
  {| Jobs := ∅; PeriodicRuns := true; ChefRunTimer := 1800;
     LastRunStartTime := 1700000000; MaintenanceTimeEnd := 0;
     RunLock := false; LastRunGUID := "" |}.

Definition idle : HTTPEngine := New table {| Slot := None |}.

Definition locked : HTTPEngine := snd (setChefLock idle).

Definition env1 : Env :=
  {| draw := "35434398-b40a-4686-ab38-38deccd4241b";
     stamp := 1501605431834067960; now := 1700000600 |}.

Definition env2 : Env :=
  {| draw := "0038cf85-68a1-4b8a-8898-f56261f02d65";
     stamp := 1501605492000000000; now := 1700000660 |}.

(** An engine with one run queued: the first on-demand request was served. *)
Definition queued : HTTPEngine := snd (registerChefRun env1 idle).

Definition text_of (s : string) : list ascii := list_ascii_of_string s.

Definition post (forceValue : option string) (pieces : list (list ascii))
  : Request :=
  {| Query := match forceValue with
              | Some v => {[ "force"%string := (v, []) ]}
              | None => ∅
              end;
     Body := {| io.Pending := pieces; io.Broken := false |} |}.

Definition big : list ascii := repeat "x"%char 600.

Definition recipes : list string := ["recipe[users]"; "recipe[base]"]%string.

Definition whitelisted : HTTPEngine := SetWhitelist recipes idle.

Definition lockedWhitelisted : HTTPEngine := SetWhitelist recipes locked.

End sample.

(** ** strings.Split and gorilla/mux path templates *)

Module gostrings.

(** [strings.Split s sep] for a separator of one byte: the pieces between the
    separators, one piece more than there are separators; the empty string
    gives one empty piece. *)
Fixpoint Split (s : string) (sep : ascii) : list string :=
  match s with
  | EmptyString => [EmptyString]
  | String c r =>
      if Ascii.eqb c sep then EmptyString :: Split r sep
      else match Split r sep with
           | piece :: pieces => String c piece :: pieces
           | [] => [String c EmptyString]
           end
  end.

(** [strings.Join] with a separator of one byte. *)
Fixpoint Join (pieces : list string) (sep : ascii) : string :=
  match pieces with
  | [] => EmptyString
  | [piece] => piece
  | piece :: rest => piece +:+ String sep (Join rest sep)
  end.

(** Whether the byte occurs in the string. *)
Fixpoint hasByte (c : ascii) (s : string) : bool :=
  match s with
  | EmptyString => false
  | String a r => Ascii.eqb a c || hasByte c r
  end.

Definition upper (c : ascii) : ascii :=
  let n := nat_of_ascii c in
  if (97 <=? n)%nat && (n <=? 122)%nat then ascii_of_nat (n - 32) else c.

(** [strings.ToUpper] on ASCII text. *)
Fixpoint ToUpper (s : string) : string :=
  match s with
  | EmptyString => EmptyString
  | String c r => String (upper c) (ToUpper r)
  end.

End gostrings.

Module mux.

(** A path template is a sequence of segments behind slashes: a literal, or
    a variable in braces, which stands for one or more bytes other than the
    slash. *)
Inductive Segment := Lit (text : string) | Var (name : string).

Definition Template := list Segment.

(** The segments of the path against the template, collecting the
    variables. *)
Fixpoint matchSegments (t : Template) (segs : list string)
    (vars : gmap string string) : option (gmap string string) :=
  match t, segs with
  | [], [] => Some vars
  | Lit text :: t', seg :: segs' =>
      if String.eqb text seg then matchSegments t' segs' vars else None
  | Var name :: t', seg :: segs' =>
      if String.eqb seg "" then None
      else matchSegments t' segs' (<[name := seg]> vars)
  | _, _ => None
  end.

(** The whole path has to fit: it starts with a slash, and what follows,
    cut at the slashes, matches the template segment by segment. *)
Definition matchPath (t : Template) (path : string)
  : option (gmap string string) :=
  match gostrings.Split path "/" with
  | EmptyString :: segs => matchSegments t segs ∅
  | _ => None
  end.

(** The router serves a path only in its clean form, the path it gets back
    from [cleanPath]; any other path is answered with a redirect to the clean
    form.  A path is clean when it starts with a slash and, cut at the
    slashes, has no empty piece but possibly the last (a slash at the end is
    kept) and no piece that is one or two dots. *)
Definition dots (seg : string) : bool :=
  String.eqb seg "." || String.eqb seg "..".

Fixpoint cleanSegments (segs : list string) : bool :=
  match segs with
  | [] => true
  | [last] => negb (dots last)
  | seg :: rest =>
      negb (String.eqb seg "") && negb (dots seg) && cleanSegments rest
  end.

Definition isClean (path : string) : bool :=
  match gostrings.Split path "/" with
  | EmptyString :: seg :: rest => cleanSegments (seg :: rest)
  | _ => false
  end.

(** Two templates that can fit one path: the same number of segments, and
    equal literals wherever both have a literal. *)
Fixpoint compatible (t1 t2 : Template) : bool :=
  match t1, t2 with
  | [], [] => true
  | Lit a :: t1', Lit b :: t2' => String.eqb a b && compatible t1' t2'
  | _ :: t1', _ :: t2' => compatible t1' t2'
  | _, _ => false
  end.

(** [mux.Vars(r)[name]]: a missing key reads as the empty string. *)
Definition Vars (vars : gmap string string) (name : string) : string :=
  default EmptyString (vars !! name).

End mux.

(** ** The router of the engine and the handlers behind it *)

Module server.
Import internalstate chefrunner webengine.

(** What the handlers take from the collaborators that are not part of the
    engine: the environment of the run handlers, the encoded application
    status with its error flag ([appState.JSONEncoded]), whether the log of
    an identifier is there ([chefLogsWorker.IsLogAvailable]) and the lines the
    scanner gets out of the log file, if it can be opened. *)
Record Outside := {
  env : Env;
  appStatus : string * bool;
  logAvailable : string -> bool;
  logLines : string -> option (list string)
}.

Definition StatusServiceUnavailable : Z := 503.

(** What is sent: an output of the handlers above, or one of the formats of
    the remaining handlers. *)
Inductive Printed :=
| Plain (o : Output)
| ChefRunsEnabledJSON (enabled : bool)
| LastRunGUIDJSON (guid : string)
| AllRunsJSON (jobs : gmap string RunRecord)
| StateOKJSON
| AppStatusJSON (encoded : string)
| LogNotFound (guid : string)
| LogLines (lines : list string).

Record Answer := { Code : Z; Sent : Printed }.

Definition answer (r : Response) : Answer :=
  {| Code := StatusCode r; Sent := Plain (Out r) |}.

Definition ok (p : Printed) : Answer := {| Code := StatusOK; Sent := p |}.

Definition setChefRunEnabled (e : HTTPEngine) : Answer * HTTPEngine :=
  let e' := withState (WritePeriodicRuns true (state e)) e in
  (ok (ChefRunsEnabledJSON (ReadPeriodicRuns (state e'))), e').

Definition setChefRunDisabled (e : HTTPEngine) : Answer * HTTPEngine :=
  let e' := withState (WritePeriodicRuns false (state e)) e in
  (ok (ChefRunsEnabledJSON (ReadPeriodicRuns (state e'))), e').

Definition getChefPeridoicRunStatus (e : HTTPEngine) : Answer :=
  ok (ChefRunsEnabledJSON (ReadPeriodicRuns (state e))).

Definition getLastRunGUID (e : HTTPEngine) : Answer :=
  ok (LastRunGUIDJSON (ReadLastRunGUID (state e))).

(** [json.MarshalIndent] of the job table; it always encodes. *)
Definition marshalJobs (jobs : gmap string RunRecord) : option Printed :=
  Some (AllRunsJSON jobs).

Definition getAllRuns (e : HTTPEngine) : Answer :=
  match marshalJobs (ReadAllJobs (state e)) with
  | None =>
      {| Code := StatusInternalServerError;
         Sent := Plain (ErrorJSON "Failed to gather jobs") |}
  | Some jsonJobs => ok jsonJobs
  end.

Definition healthCheck : Answer := ok StateOKJSON.

Definition getStatus (o : Outside) : Answer :=
  let '(encoded, err) := appStatus o in
  {| Code := if err then StatusServiceUnavailable else StatusOK;
     Sent := AppStatusJSON encoded |}.

Definition getChefLogs (o : Outside) (guid : string) : Answer :=
  if negb (logAvailable o guid) then
    {| Code := StatusNotFound; Sent := LogNotFound guid |}
  else match logLines o guid with
       | None => {| Code := StatusInternalServerError; Sent := Plain Nothing |}
       | Some lines => ok (LogLines lines)
       end.

(** The handlers the router knows. *)
Inductive Handler :=
| registerChefRunH | registerChefCustomRunH | getChefStatusH | getChefLogsH
| getNextChefRunH | getChefRunIntervalH | setChefRunIntervalH
| setChefRunEnabledH | setChefRunDisabledH | getLastRunGUIDH | getAllRunsH
| getChefPeridoicRunStatusH | getChefMaintenanceH | setChefMaintenanceH
| removeChefMaintenanceH | getChefLockH | setChefLockH | removeChefLockH
| getStatusH | healthCheckH.

Record Route := {
  template : mux.Template;
  handler : Handler;
  methods : string
}.

(** [router.HandleFunc(path, f).Methods(m)]; mux keeps the method in upper
    case. *)
Definition HandleFunc (t : mux.Template) (h : Handler) (m : string) : Route :=
  {| template := t; handler := h; methods := gostrings.ToUpper m |}.

(** The routes of [New], in the order of their registration. *)
Definition routes : list Route :=
  let L := mux.Lit in
  let V := mux.Var in
  [ HandleFunc [L "chefclient"] registerChefRunH "Get";
    HandleFunc [L "chefclient"] registerChefCustomRunH "Post";
    HandleFunc [L "chefclient"; V "guid"] getChefStatusH "Get";
    HandleFunc [L "cheflogs"; V "guid"] getChefLogsH "Get";
    HandleFunc [L "chef"; L "nextrun"] getNextChefRunH "Get";
    HandleFunc [L "chef"; L "interval"] getChefRunIntervalH "Get";
    HandleFunc [L "chef"; L "interval"; V "i"] setChefRunIntervalH "Get";
    HandleFunc [L "chef"; L "on"] setChefRunEnabledH "Get";
    HandleFunc [L "chef"; L "off"] setChefRunDisabledH "Get";
    HandleFunc [L "chef"; L "lastrun"] getLastRunGUIDH "Get";
    HandleFunc [L "chef"; L "allruns"] getAllRunsH "Get";
    HandleFunc [L "chef"; L "enabled"] getChefPeridoicRunStatusH "Get";
    HandleFunc [L "chef"; L "maintenance"] getChefMaintenanceH "Get";
    HandleFunc [L "chef"; L "maintenance"; L "start"; V "i"]
      setChefMaintenanceH "Get";
    HandleFunc [L "chef"; L "maintenance"; L "end"]
      removeChefMaintenanceH "Get";
    HandleFunc [L "chef"; L "lock"] getChefLockH "Get";
    HandleFunc [L "chef"; L "lock"; L "set"] setChefLockH "Get";
    HandleFunc [L "chef"; L "lock"; L "remove"] removeChefLockH "Get";
    HandleFunc [L "status"] getStatusH "Get";
    HandleFunc [L "_status"] getStatusH "Get";
    HandleFunc [L "healthcheck"] healthCheckH "Get" ]%string.

(** Routes of one method whose templates can fit one path, and a list of
    routes without such a pair. *)
Definition clash (r1 r2 : Route) : bool :=
  String.eqb (methods r1) (methods r2)
  && mux.compatible (template r1) (template r2).

Fixpoint noClash (rs : list Route) : bool :=
  match rs with
  | [] => true
  | r :: rest => forallb (fun r' => negb (clash r r')) rest && noClash rest
  end.

(** [Route.Match]: the method and the template of the route both fit the
    request; the variables of the path. *)
Definition fits (r : Route) (method path : string)
  : option (gmap string string) :=
  if String.eqb (methods r) method then mux.matchPath (template r) path
  else None.

(** The first route, in the order of registration, that fits the request. *)
Fixpoint Match (rs : list Route) (method path : string)
  : option (Handler * gmap string string) :=
  match rs with
  | [] => None
  | r :: rest =>
      match fits r method path with
      | Some vars => Some (handler r, vars)
      | None => Match rest method path
      end
  end.

(** The handler for a request: none for a path that is not clean, else the
    one of the route found, with the variables of the path. *)
Definition dispatch (method path : string)
  : option (Handler * gmap string string) :=
  if mux.isClean path then Match routes method path else None.

Definition lift (out : Response * HTTPEngine) : Answer * HTTPEngine :=
  (answer (fst out), snd out).

(** The handler at work on the variables of the path, the request and the
    engine. *)
Definition call (h : Handler) (vars : gmap string string) (o : Outside)
    (r : Request) (e : HTTPEngine) : Answer * HTTPEngine :=
  match h with
  | registerChefRunH => lift (registerChefRun (env o) e)
  | registerChefCustomRunH => lift (registerChefCustomRun (env o) r e)
  | getChefStatusH => (answer (getChefStatus (mux.Vars vars "guid") e), e)
  | getChefLogsH => (getChefLogs o (mux.Vars vars "guid"), e)
  | getNextChefRunH => (answer (getNextChefRun e), e)
  | getChefRunIntervalH => (answer (getChefRunInterval e), e)
  | setChefRunIntervalH => lift (setChefRunInterval (mux.Vars vars "i") e)
  | setChefRunEnabledH => setChefRunEnabled e
  | setChefRunDisabledH => setChefRunDisabled e
  | getLastRunGUIDH => (getLastRunGUID e, e)
  | getAllRunsH => (getAllRuns e, e)
  | getChefPeridoicRunStatusH => (getChefPeridoicRunStatus e, e)
  | getChefMaintenanceH => (answer (getChefMaintenance (env o) e), e)
  | setChefMaintenanceH =>
      lift (setChefMaintenance (env o) (mux.Vars vars "i") e)
  | removeChefMaintenanceH => lift (removeChefMaintenance e)
  | getChefLockH => (answer (getChefLock e), e)
  | setChefLockH => lift (setChefLock e)
  | removeChefLockH => lift (removeChefLock e)
  | getStatusH => (getStatus o, e)
  | healthCheckH => (healthCheck, e)
  end.

(** One request as it reaches [ServeHTTP]. *)
Record Hit := {
  Method : string;
  Path : string;
  Req : Request;
  World : Outside
}.

(** [ServeHTTP]: the matching handler runs; for a path that is not clean or
    without a matching route no handler of the engine runs and the router
    answers on its own. *)
Definition ServeHTTP (hit : Hit) (e : HTTPEngine)
  : option (Answer * HTTPEngine) :=
  match dispatch (Method hit) (Path hit) with
  | Some (h, vars) => Some (call h vars (World hit) (Req hit) e)
  | None => None
  end.

(** The engine after a request. *)
Definition after (hit : Hit) (e : HTTPEngine) : HTTPEngine :=
  match ServeHTTP hit e with
  | Some (_, e') => e'
  | None => e
  end.

(** The engine after a sequence of requests. *)
Definition afterAll (hits : list Hit) (e : HTTPEngine) : HTTPEngine :=
  fold_left (fun e hit => after hit e) hits e.

(** The requests that can lift or pass the run lock: the removal of the lock
    and a custom run with the force override. *)
Definition passesLock (hit : Hit) : bool :=
  match dispatch (Method hit) (Path hit) with
  | Some (removeChefLockH, _) => true
  | Some (registerChefCustomRunH, _) => negb (checklock (Req hit))
  | _ => false
  end.

(** The requests to the two routes that write the lock. *)
Definition writesLock (hit : Hit) : bool :=
  match dispatch (Method hit) (Path hit) with
  | Some (setChefLockH, _) | Some (removeChefLockH, _) => true
  | _ => false
  end.

End server.

(** ** Package internalstate: the state file and the chef version *)

Module statefiles.

(** [getStatePath] of statemanagement_windows.go: prefix, backslash, name. *)
Definition getStatePath (prefix statedb : string) : string :=
  prefix +:+ String "\"%char statedb.

Section ChefVersion.

(** [cmd.Chomp] is not among the sources; [chefVersion] is modelled for any
    such function. *)
Variable Chomp : string -> string.

(** [chefVersion] on what [cmd.RunCommand "chef-client" "-v"] gave back:
    the standard output and the exit code.  The result is the version and
    the error, if any. *)
Definition chefVersion (stdout : string) (exitCode : Z)
  : string * option string :=
  if negb (exitCode =? 0) then
    (EmptyString, Some "Could not determin chef version"%string)
  else
    let version := gostrings.Split stdout " " in
    if (1 <? length version)%nat then
      (Chomp (nth 1 version EmptyString), None)
    else (Chomp stdout, None).

End ChefVersion.

End statefiles.

(** ** Whitelist entries and sample requests *)

Module traffic.
Import internalstate chefrunner webengine server.

(** An entry that no command text can equal: it is longer than the size
    bound, or it ends in a zero byte. *)
Definition endsWithNUL (w : string) : bool :=
  match rev (list_ascii_of_string w) with
  | c :: _ => Ascii.eqb c NUL
  | [] => false
  end.

Definition unmatchable (w : string) : bool :=
  (512 <? String.length w)%nat || endsWithNUL w.

Definition world : Outside :=
  {| env := sample.env1; appStatus := ("{}"%string, false);
     logAvailable := fun _ => false; logLines := fun _ => None |}.

Definition get (path : string) : Hit :=
  {| Method := "GET"; Path := path; Req := sample.post None [];
     World := world |}.

Definition postRun (forceValue : option string) (text : string) : Hit :=
  {| Method := "POST"; Path := "/chefclient";
     Req := sample.post forceValue [sample.text_of text]; World := world |}.

End traffic.

(** * Properties *)

Import internalstate chefrunner webengine system.

(** ** Machine integers *)

Lemma fits_spec z : GoInt.fits z = true <-> GoInt.minInt <= z <= GoInt.maxInt.
Proof. unfold GoInt.fits. rewrite andb_true_iff, !Z.leb_le. tauto. Qed.

Lemma wrap_fits z : GoInt.fits z = true -> GoInt.wrap z = z.
Proof.
  rewrite fits_spec.
  unfold GoInt.wrap, GoInt.minInt, GoInt.maxInt, GoInt.intSize. intros H.
  rewrite Z.mod_small; lia.
Qed.

Lemma wrap_range z : GoInt.fits (GoInt.wrap z) = true.
Proof.
  rewrite fits_spec.
  unfold GoInt.wrap, GoInt.minInt, GoInt.maxInt, GoInt.intSize.
  pose proof (Z.mod_pos_bound (z - - 2 ^ (64 - 1)) (2 ^ 64) ltac:(lia)). lia.
Qed.

Example wrap_top : GoInt.wrap (GoInt.maxInt + 1) = GoInt.minInt.
Proof. reflexivity. Qed.

(** ** strconv.Atoi *)

Example Atoi_30 : strconv.Atoi "30" = Some 30.
Proof. reflexivity. Qed.
Example Atoi_neg : strconv.Atoi "-7" = Some (-7).
Proof. reflexivity. Qed.
Example Atoi_plus : strconv.Atoi "+12" = Some 12.
Proof. reflexivity. Qed.
Example Atoi_empty : strconv.Atoi "" = None.
Proof. reflexivity. Qed.
Example Atoi_sign_only : strconv.Atoi "-" = None.
Proof. reflexivity. Qed.
Example Atoi_junk : strconv.Atoi "12a" = None.
Proof. reflexivity. Qed.
Example Atoi_fraction : strconv.Atoi "1.5" = None.
Proof. reflexivity. Qed.
Example Atoi_max :
  strconv.Atoi "9223372036854775807" = Some 9223372036854775807.
Proof. vm_compute. reflexivity. Qed.
Example Atoi_overflow : strconv.Atoi "9223372036854775808" = None.
Proof. vm_compute. reflexivity. Qed.

(** The first character of the digits of a number is no sign. *)
Lemma splitSign_digits (d : uint) :
  d <> Nil ->
  strconv.splitSign (NilEmpty.string_of_uint d)
  = (false, NilEmpty.string_of_uint d)
  /\ NilEmpty.string_of_uint d <> EmptyString.
Proof. destruct d; intros H; try congruence; split; (reflexivity || discriminate). Qed.

Lemma Z_of_uint_pos (p : positive) : Z.of_uint (Pos.to_uint p) = Z.pos p.
Proof. unfold Z.of_uint. now rewrite DecimalPos.Unsigned.of_to. Qed.

(** A positive number within the range of [int], written in decimal, is read
    back by [Atoi]. *)
Lemma Atoi_FormatPos (p : positive) :
  Z.pos p <= GoInt.maxInt -> strconv.Atoi (strconv.FormatPos p) = Some (Z.pos p).
Proof.
  intros Hp. unfold strconv.Atoi, strconv.FormatPos.
  destruct (splitSign_digits (Pos.to_uint p)) as [Hs Hne].
  { apply DecimalPos.Unsigned.to_uint_nonnil. }
  rewrite Hs.
  destruct (NilEmpty.string_of_uint (Pos.to_uint p)) eqn:E; [congruence|].
  rewrite <- E, NilEmpty.usu, Z_of_uint_pos.
  replace (GoInt.fits (Z.pos p)) with true; [reflexivity|].
  symmetry. apply fits_spec. unfold GoInt.minInt, GoInt.intSize. lia.
Qed.

(** ** bytes.TrimRight *)

Lemma TrimRight_length (s cutset : list ascii) :
  (length (bytes.TrimRight s cutset) <= length s)%nat.
Proof.
  induction s as [|c r IH]; simpl; [lia|].
  destruct (bytes.TrimRight r cutset) eqn:E.
  - destruct (existsb (Ascii.eqb c) cutset); simpl; lia.
  - simpl in *. lia.
Qed.

Lemma TrimRight_padding (s : list ascii) (k : nat) :
  bytes.TrimRight (s ++ repeat NUL k) [NUL] = bytes.TrimRight s [NUL].
Proof.
  assert (Hpad : bytes.TrimRight (repeat NUL k) [NUL] = []).
  { induction k as [|k IH]; simpl; [reflexivity|]. now rewrite IH. }
  induction s as [|c r IH]; simpl; [exact Hpad|]. now rewrite IH.
Qed.

Lemma string_length_of_list (l : list ascii) :
  String.length (string_of_list_ascii l) = length l.
Proof. induction l; simpl; congruence. Qed.

(** The command text never outgrows the bytes that were read. *)
Lemma customRunText_length (data : list ascii) :
  (String.length (customRunText data) <= length data)%nat.
Proof.
  unfold customRunText, bodySlurp.
  rewrite TrimRight_padding, string_length_of_list. apply TrimRight_length.
Qed.

Example customRunText_plain :
  customRunText (sample.text_of "recipe[users]") = "recipe[users]"%string.
Proof. reflexivity. Qed.

Example customRunText_trailing_zero :
  customRunText (sample.text_of "abc" ++ [NUL; NUL]) = "abc"%string.
Proof. reflexivity. Qed.

(** The whitelist loop finds the text exactly when it is an entry. *)
Lemma matched_In (text : string) (wl : list string) :
  matched text wl = true <-> In text wl.
Proof.
  unfold matched. rewrite existsb_exists. split.
  - intros [x [Hin Heq]]. apply String.eqb_eq in Heq. now subst.
  - intros Hin. exists text. split; [assumption|apply String.eqb_refl].
Qed.

(** ** Lock gating *)

(** C1.  With the run lock set, [registerChefRun] (GET /chefclient) and
    [registerChefCustomRun] (POST /chefclient) without a force override (the
    handler's [checklock] stays true) both answer 403 Forbidden with the
    message that the service is locked, and leave the engine, and so the job
    table, the queue slot and every run record, as they were. *)
Theorem locked_requests_refused (env : Env) (r : Request) (e : HTTPEngine) :
  ReadRunLock (state e) = true ->
  checklock r = true ->
  let locked := replyWith StatusForbidden (ErrorJSON "Chefwaiter is locked") in
  registerChefRun env e = (locked, e)
  /\ registerChefCustomRun env r e = (locked, e)
  /\ StatusCode locked = StatusForbidden
  /\ Jobs (state (snd (registerChefRun env e))) = Jobs (state e)
  /\ Jobs (state (snd (registerChefCustomRun env r e))) = Jobs (state e).
Proof.
  intros Hlock Hcheck locked.
  assert (H1 : registerChefRun env e = (locked, e)).
  { unfold registerChefRun. now rewrite Hlock. }
  assert (H2 : registerChefCustomRun env r e = (locked, e)).
  { unfold registerChefCustomRun. now rewrite Hcheck, Hlock. }
  rewrite H1, H2. repeat split; reflexivity.
Qed.

Lemma locked_requests_refused_witness :
  registerChefRun sample.env1 sample.locked
  = (replyWith StatusForbidden (ErrorJSON "Chefwaiter is locked"),
     sample.locked)
  /\ registerChefCustomRun sample.env1
       (sample.post None [sample.text_of "recipe[users]"]) sample.locked
     = (replyWith StatusForbidden (ErrorJSON "Chefwaiter is locked"),
        sample.locked).
Proof.
  pose proof (locked_requests_refused sample.env1
                (sample.post None [sample.text_of "recipe[users]"])
                sample.locked) as H.
  simpl in H. specialize (H eq_refl eq_refl).
  destruct H as [H1 [H2 _]]. split; [exact H1 | exact H2].
Defined.

(** A force parameter with another first value than [true] is no override. *)
Example force_false_checks_lock :
  checklock (sample.post (Some "false"%string) []) = true
  /\ checklock (sample.post (Some "true"%string) []) = false
  /\ checklock (sample.post None []) = true.
Proof. repeat split; reflexivity. Qed.

(** ** Coalescing on the queue slot *)





(** ** Reading a run *)

(** C3, as stated, fails: for an identifier the table does not hold,
    [getChefStatus] answers with status 200, not 404. *)
Lemma unknown_guid_answers_200 :
  Read "no-such-run" (state sample.idle) = None
  /\ StatusCode (getChefStatus "no-such-run" sample.idle) = StatusOK
  /\ StatusCode (getChefStatus "no-such-run" sample.idle) <> StatusNotFound.
Proof. vm_compute. repeat split; congruence. Qed.

(** C3, amended.  For an identifier that is not in the job table the read of
    the state finds no record, and [getChefStatus] (GET /chefclient/guid)
    hands that empty result to the caller in the body under the default
    status 200; it sends neither 404 nor any other error status. *)
Theorem unknown_guid_reported_in_body (guid : string) (e : HTTPEngine) :
  Jobs (state e) !! guid = None ->
  Read guid (state e) = None
  /\ getChefStatus guid e = reply (RunJSON None)
  /\ StatusCode (getChefStatus guid e) = StatusOK
  /\ StatusCode (getChefStatus guid e) <> StatusNotFound.
Proof.
  intros Habsent. unfold getChefStatus, Read. rewrite Habsent. simpl.
  repeat split; try reflexivity. vm_compute. congruence.
Qed.

Lemma unknown_guid_reported_in_body_witness :
  getChefStatus "no-such-run" sample.idle = reply (RunJSON None).
Proof.
  destruct (unknown_guid_reported_in_body "no-such-run" sample.idle)
    as [_ [H _]]; [vm_compute; reflexivity | exact H].
Defined.

(** The status of a known identifier comes with status 200 as well: the
    handler has no other status than 200 and 500. *)
Lemma getChefStatus_code (guid : string) (e : HTTPEngine) :
  StatusCode (getChefStatus guid e) = StatusOK.
Proof. reflexivity. Qed.

(** ** The run interval *)

Lemma setChefRunInterval_accepts (s : string) (i : Z) (e : HTTPEngine) :
  strconv.Atoi s = Some i -> 0 < i ->
  setChefRunInterval s e
  = (reply Nothing, withState (WriteChefRunTimer i (state e)) e).
Proof.
  intros HA Hi. unfold setChefRunInterval. rewrite HA.
  destruct (i <? 0) eqn:E1; [apply Z.ltb_lt in E1; lia|].
  destruct (i <=? 0) eqn:E2; [apply Z.leb_le in E2; lia|]. reflexivity.
Qed.

Lemma setChefRunInterval_rejects (s : string) (e : HTTPEngine) :
  (strconv.Atoi s = None \/ exists i, strconv.Atoi s = Some i /\ i <= 0) ->
  setChefRunInterval s e
  = (replyWith StatusBadRequest
       (ErrorJSON "Only a positive number will be accepted"), e).
Proof.
  unfold setChefRunInterval. intros [-> | [i [-> Hi]]]; [reflexivity|].
  destruct (i <? 0) eqn:E1; [reflexivity|].
  destruct (i <=? 0) eqn:E2; [reflexivity|]. apply Z.leb_gt in E2. lia.
Qed.

(** What the getter prints after the setter took [i]: the stored number
    divided by 60, as minutes. *)
Lemma interval_set_then_get (s : string) (i : Z) (e : HTTPEngine) :
  strconv.Atoi s = Some i -> 0 < i -> GoInt.fits i = true ->
  getChefRunInterval (snd (setChefRunInterval s e))
  = reply (IntervalJSON (i / 60)).
Proof.
  intros HA Hi Hfit. rewrite (setChefRunInterval_accepts s i e HA Hi).
  unfold getChefRunInterval, ReadChefRunTimer, GoInt.div. simpl.
  rewrite Z.quot_div_nonneg by lia.
  rewrite wrap_fits; [reflexivity|].
  apply fits_spec. apply fits_spec in Hfit.
  assert (0 <= i / 60 <= i).
  { split; [apply Z.div_pos; lia|]. apply Z.div_le_upper_bound; lia. }
  unfold GoInt.minInt, GoInt.maxInt, GoInt.intSize in *. lia.
Qed.


(** C9, as stated, fails: 9223372036854775808 is a positive integer, and the
    request to set it is refused with 400, the interval staying as it was. *)
Lemma interval_beyond_int_refused :
  let out :=
    setChefRunInterval (strconv.FormatPos 9223372036854775808) sample.idle in
  StatusCode (fst out) = StatusBadRequest
  /\ ReadChefRunTimer (state (snd out)) = ReadChefRunTimer (state sample.idle).
Proof. vm_compute. split; reflexivity. Qed.

(** C9, amended.  [setChefRunInterval] accepts positive numbers within the
    range of [int] only: a path text that [Atoi] does not read (no number, or
    a number beyond the 64-bit range), or that reads as [i <= 0], is answered
    400 with the engine unchanged; a text that reads as a positive [i], in
    particular the decimal text of any positive integer up to
    9223372036854775807, is answered 200 and [i] becomes the stored
    interval, nothing else changing. *)
Theorem interval_accepts_positive_int_only (s : string) (e : HTTPEngine) :
  let refused :=
    (replyWith StatusBadRequest
       (ErrorJSON "Only a positive number will be accepted"), e) in
  (strconv.Atoi s = None -> setChefRunInterval s e = refused)
  /\ (forall i, strconv.Atoi s = Some i -> i <= 0 ->
        setChefRunInterval s e = refused)
  /\ (forall i, strconv.Atoi s = Some i -> 0 < i ->
        let out := setChefRunInterval s e in
        StatusCode (fst out) = StatusOK
        /\ ReadChefRunTimer (state (snd out)) = i
        /\ snd out = withState (WriteChefRunTimer i (state e)) e)
  /\ (forall p : positive, Z.pos p <= GoInt.maxInt ->
        let out := setChefRunInterval (strconv.FormatPos p) e in
        StatusCode (fst out) = StatusOK
        /\ ReadChefRunTimer (state (snd out)) = Z.pos p).
Proof.
  intros refused. repeat split.
  - intros HA. apply setChefRunInterval_rejects. now left.
  - intros i HA Hi. apply setChefRunInterval_rejects. right. now exists i.
  - now rewrite (setChefRunInterval_accepts s i e).
  - now rewrite (setChefRunInterval_accepts s i e).
  - now rewrite (setChefRunInterval_accepts s i e).
  - rewrite (setChefRunInterval_accepts _ (Z.pos p) e);
      [reflexivity | now apply Atoi_FormatPos | lia].
  - rewrite (setChefRunInterval_accepts _ (Z.pos p) e);
      [reflexivity | now apply Atoi_FormatPos | lia].
Qed.

Lemma interval_accepts_positive_int_only_witness :
  setChefRunInterval "abc" sample.idle
  = (replyWith StatusBadRequest
       (ErrorJSON "Only a positive number will be accepted"), sample.idle)
  /\ setChefRunInterval "0" sample.idle
     = (replyWith StatusBadRequest
          (ErrorJSON "Only a positive number will be accepted"), sample.idle)
  /\ ReadChefRunTimer (state (snd (setChefRunInterval "600" sample.idle)))
     = 600
  /\ ReadChefRunTimer
       (state (snd (setChefRunInterval (strconv.FormatPos 45) sample.idle)))
     = 45.
Proof.
  split; [|split; [|split]].
  - apply (interval_accepts_positive_int_only "abc" sample.idle). reflexivity.
  - apply (proj1 (proj2
             (interval_accepts_positive_int_only "0" sample.idle)) 0);
      [reflexivity | lia].
  - apply (proj1 (proj2 (proj2
             (interval_accepts_positive_int_only "600" sample.idle))) 600);
      [reflexivity | lia].
  - apply (proj2 (proj2 (proj2
             (interval_accepts_positive_int_only "" sample.idle))) 45%positive).
    unfold GoInt.maxInt, GoInt.intSize. lia.
Defined.

(** ** The next run *)

Lemma getNextChefRun_wraps (e : HTTPEngine) :
  getNextChefRun e
  = replyWith StatusOK
      (NextRunJSON (GoInt.wrap (GetlastRunStartTime (state e)
                                + ReadChefRunTimer (state e)))).
Proof. reflexivity. Qed.

(** C8, as stated, fails: with the largest interval the setter accepts, the
    epoch reported for the next run is not the last start time plus the
    interval; the 64-bit sum has wrapped around to a negative number. *)
Lemma next_run_wraps_around :
  let e := snd (setChefRunInterval "9223372036854775807" sample.idle) in
  GetlastRunStartTime (state e) = 1700000000
  /\ ReadChefRunTimer (state e) = 9223372036854775807
  /\ getNextChefRun e = replyWith StatusOK (NextRunJSON (-9223372035154775809))
  /\ Out (getNextChefRun e)
     <> NextRunJSON (GetlastRunStartTime (state e) + ReadChefRunTimer (state e)).
Proof. vm_compute. repeat split; congruence. Qed.

(** C8, amended.  [getNextChefRun] (GET /chef/nextrun) answers 200 with the
    epoch last start time + interval whenever that sum is within the range of
    a signed 64-bit integer. *)
Theorem next_run_is_last_plus_interval (e : HTTPEngine) :
  GoInt.fits (GetlastRunStartTime (state e) + ReadChefRunTimer (state e))
  = true ->
  getNextChefRun e
  = replyWith StatusOK
      (NextRunJSON (GetlastRunStartTime (state e)
                    + ReadChefRunTimer (state e)))
  /\ StatusCode (getNextChefRun e) = StatusOK.
Proof.
  intros Hfit. rewrite getNextChefRun_wraps, (wrap_fits _ Hfit).
  split; reflexivity.
Qed.

Lemma next_run_is_last_plus_interval_witness :
  getNextChefRun sample.idle = replyWith StatusOK (NextRunJSON 1700001800).
Proof.
  apply (next_run_is_last_plus_interval sample.idle). reflexivity.
Defined.

(** ** Maintenance *)

Lemma setChefMaintenance_wraps (env : Env) (s : string) (i : Z)
    (e : HTTPEngine) :
  strconv.Atoi s = Some i ->
  let endTime := GoInt.wrap (now env + GoInt.wrap (i * 60)) in
  setChefMaintenance env s e
  = (reply (EndTimeJSON endTime),
     withState (WriteMaintenanceTimeEnd endTime (state e)) e).
Proof. intros HA. unfold setChefMaintenance. now rewrite HA. Qed.

(** C5, as stated, fails: 4611686018427387904 is a non-negative whole number,
    the request to start maintenance for that many minutes succeeds, and the
    end time it stores is the current time itself, since the product with 60
    wraps around to 0 in a 64-bit [int]. *)
Lemma maintenance_minutes_wrap_around :
  let out :=
    setChefMaintenance sample.env1
      (strconv.FormatPos 4611686018427387904) sample.idle in
  StatusCode (fst out) = StatusOK
  /\ ReadMaintenanceTimeEnd (state (snd out)) = now sample.env1
  /\ ReadMaintenanceTimeEnd (state (snd out))
     <> now sample.env1 + 4611686018427387904 * 60.
Proof. vm_compute. repeat split; congruence. Qed.

(** C5, amended.  For every non-negative whole number [i] for which
    now + 60 i, in epoch seconds, is within the range of a signed 64-bit
    integer, [setChefMaintenance] (GET /chef/maintenance/start/i) answers 200
    and sets the maintenance end time to now + 60 i, which for [i = 0] is
    already over; [removeChefMaintenance] sets the end time to 0; and
    [getChefMaintenance] reports the stored end time and is in maintenance
    exactly when that end time is later than the current time. *)
Theorem maintenance_window (env : Env) (s : string) (i : Z) (e : HTTPEngine) :
  strconv.Atoi s = Some i ->
  0 <= i ->
  0 <= now env ->
  now env + i * 60 <= GoInt.maxInt ->
  (let out := setChefMaintenance env s e in
   StatusCode (fst out) = StatusOK
   /\ ReadMaintenanceTimeEnd (state (snd out)) = now env + i * 60
   /\ (i = 0 -> InMaintenceMode (now env) (state (snd out)) = false))
  /\ ReadMaintenanceTimeEnd (state (snd (removeChefMaintenance e))) = 0
  /\ (forall (env' : Env) (e' : HTTPEngine),
        exists inMaintenance,
          getChefMaintenance env' e'
          = reply (MaintenanceJSON (ReadMaintenanceTimeEnd (state e'))
                                   inMaintenance)
          /\ (inMaintenance = true
              <-> now env' < ReadMaintenanceTimeEnd (state e'))).
Proof.
  intros HA Hi Hnow Hfit. split; [|split].
  - rewrite (setChefMaintenance_wraps env s i e HA). simpl.
    assert (Hmul : GoInt.wrap (i * 60) = i * 60).
    { apply wrap_fits, fits_spec.
      unfold GoInt.minInt, GoInt.maxInt, GoInt.intSize in *. lia. }
    assert (Hadd : GoInt.wrap (now env + i * 60) = now env + i * 60).
    { apply wrap_fits, fits_spec.
      unfold GoInt.minInt, GoInt.maxInt, GoInt.intSize in *. lia. }
    unfold ReadMaintenanceTimeEnd, InMaintenceMode. simpl.
    rewrite Hmul, Hadd. repeat split.
    intros ->. apply Z.ltb_ge. lia.
  - reflexivity.
  - intros env' e'. exists (InMaintenceMode (now env') (state e')).
    split; [reflexivity|]. unfold InMaintenceMode, ReadMaintenanceTimeEnd.
    apply Z.ltb_lt.
Qed.

Lemma maintenance_window_witness :
  ReadMaintenanceTimeEnd
    (state (snd (setChefMaintenance sample.env1 "15" sample.idle)))
  = 1700000600 + 15 * 60.
Proof.
  destruct (maintenance_window sample.env1 "15" 15 sample.idle)
    as [[_ [H _]] _];
    [reflexivity | lia | simpl; lia
     | unfold GoInt.maxInt, GoInt.intSize; simpl; lia | exact H].
Defined.

Example maintenance_zero_minutes :
  let e := snd (setChefMaintenance sample.env1 "0" sample.idle) in
  ReadMaintenanceTimeEnd (state e) = now sample.env1
  /\ getChefMaintenance sample.env1 e
     = reply (MaintenanceJSON 1700000600 false).
Proof. vm_compute. split; reflexivity. Qed.

Example maintenance_running :
  let e := snd (setChefMaintenance sample.env1 "15" sample.idle) in
  getChefMaintenance sample.env2 e = reply (MaintenanceJSON 1700001500 true).
Proof. vm_compute. reflexivity. Qed.

(** ** Custom runs: the size bound and the whitelist *)

(** Past the lock gate the handler is [checkedCustomRun]. *)
Lemma gate_open (env : Env) (r : Request) (e : HTTPEngine) :
  checklock r && ReadRunLock (state e) = false ->
  registerChefCustomRun env r e = checkedCustomRun env r e.
Proof.
  intros Hgate. unfold registerChefCustomRun, checkedCustomRun.
  rewrite Hgate. destruct (io.Read (Body r) 513) as [data err].
  unfold admitCustomRun, tooLarge, notWhitelisted.
  destruct err as [[|]|]; try reflexivity;
    destruct (512 <? length data)%nat; try reflexivity;
    destruct (use (whitelists e)
              && negb (matched (customRunText data) (whitelist (whitelists e))));
    try reflexivity;
    destruct (CustomRun (customRunText data) (draw env) (stamp env)
                (worker e) (state e)) as [[guid w] st]; reflexivity.
Qed.

Lemma admitCustomRun_code (env : Env) (text : string) (e : HTTPEngine) :
  StatusCode (fst (admitCustomRun env text e)) = StatusOK.
Proof.
  unfold admitCustomRun.
  destruct (CustomRun text (draw env) (stamp env) (worker e) (state e))
    as [[guid w] st]. reflexivity.
Qed.

(** Every outcome of the stages behind the gate, by what the read delivered. *)
Lemma checkedCustomRun_cases (env : Env) (r : Request) (e : HTTPEngine)
    (data : list ascii) (err : option io.error) :
  io.Read (Body r) 513 = (data, err) ->
  let text := customRunText data in
  let wl := whitelists e in
  (err = Some io.Failure ->
     checkedCustomRun env r e = (replyWith StatusBadRequest Nothing, e))
  /\ (err <> Some io.Failure -> (512 < length data)%nat ->
        checkedCustomRun env r e = (tooLarge, e))
  /\ (err <> Some io.Failure -> (length data <= 512)%nat ->
        use wl = true -> ~ In text (whitelist wl) ->
        checkedCustomRun env r e = (notWhitelisted text, e))
  /\ (err <> Some io.Failure -> (length data <= 512)%nat ->
        (use wl = true -> In text (whitelist wl)) ->
        checkedCustomRun env r e = admitCustomRun env text e).
Proof.
  intros HR text wl. unfold checkedCustomRun. rewrite HR.
  repeat split.
  - now intros ->.
  - intros Herr Hn. apply Nat.ltb_lt in Hn. rewrite Hn.
    destruct err as [[|]|]; congruence.
  - intros Herr Hn Huse Hnot.
    assert (Hlt : (512 <? length data)%nat = false) by (apply Nat.ltb_ge; lia).
    rewrite Hlt. fold text. fold wl. rewrite Huse.
    assert (Hm : matched text (whitelist wl) = false).
    { destruct (matched text (whitelist wl)) eqn:E; [|reflexivity].
      apply matched_In in E. contradiction. }
    rewrite Hm. destruct err as [[|]|]; simpl; congruence.
  - intros Herr Hn Hin.
    assert (Hlt : (512 <? length data)%nat = false) by (apply Nat.ltb_ge; lia).
    rewrite Hlt. fold text. fold wl.
    assert (Hm : use wl && negb (matched text (whitelist wl)) = false).
    { destruct (use wl); [|reflexivity].
      destruct (matched text (whitelist wl)) eqn:E; [reflexivity|].
      pose proof (proj2 (matched_In text (whitelist wl)) (Hin eq_refl)).
      congruence. }
    rewrite Hm. destruct err as [[|]|]; simpl; congruence.
Qed.

(** One read of a body that arrived in at most one piece stores the first 513
    bytes of the payload and does not fail. *)
Lemma Read_whole (b : io.Reader) :
  io.Broken b = false ->
  (length (io.Pending b) <= 1)%nat ->
  exists err, io.Read b 513 = (firstn 513 (io.Payload b), err)
              /\ err <> Some io.Failure.
Proof.
  intros Hb Hone. unfold io.Read, io.Payload. rewrite Hb.
  destruct (io.Pending b) as [|c [|c' rest]]; simpl in *.
  - exists (Some io.EOF). split; [reflexivity | congruence].
  - exists None. rewrite app_nil_r. split; [reflexivity | congruence].
  - lia.
Qed.

(** C6, as stated, fails: with the run lock set and no force override a
    request whose payload has 600 bytes is answered 403, not 400. *)
Lemma oversized_locked_is_forbidden :
  let r := sample.post None [sample.big] in
  let out := registerChefCustomRun sample.env1 r sample.locked in
  (512 < length (io.Payload (Body r)))%nat
  /\ StatusCode (fst out) = StatusForbidden
  /\ StatusCode (fst out) <> StatusBadRequest.
Proof. vm_compute. repeat split; (lia || congruence). Qed.

(** C6, amended.  For every custom-run request that gets past the lock gate
    (the lock is not set, or the request forces the run) and whose body
    reaches the handler in one piece: a failing read, or a payload of more
    than 512 bytes, is answered 400 with the engine, and so the job table,
    unchanged; a payload of at most 512 bytes passes the size check, the
    request going on to the whitelist check and, from there, to the refusal
    for the whitelist or to the admission of the run. *)
Theorem size_bound_behind_lock_gate (env : Env) (r : Request)
    (e : HTTPEngine) :
  checklock r && ReadRunLock (state e) = false ->
  (length (io.Pending (Body r)) <= 1)%nat ->
  let payload := io.Payload (Body r) in
  let out := registerChefCustomRun env r e in
  (io.Broken (Body r) = true ->
     StatusCode (fst out) = StatusBadRequest /\ snd out = e)
  /\ (io.Broken (Body r) = false -> (512 < length payload)%nat ->
        out = (tooLarge, e)
        /\ StatusCode (fst out) = StatusBadRequest
        /\ Jobs (state (snd out)) = Jobs (state e))
  /\ (io.Broken (Body r) = false -> (length payload <= 512)%nat ->
        let text := customRunText payload in
        StatusCode (fst out) <> StatusBadRequest
        /\ (out = (notWhitelisted text, e)
            \/ out = admitCustomRun env text e)).
Proof.
  intros Hgate Hone payload out. unfold out.
  rewrite (gate_open env r e Hgate). split; [|split].
  - intros Hbroken. unfold checkedCustomRun, io.Read. rewrite Hbroken.
    split; reflexivity.
  - intros Hsound Hlen.
    destruct (Read_whole (Body r) Hsound Hone) as [err [HR Herr]].
    destruct (checkedCustomRun_cases env r e _ err HR) as [_ [Hbig _]].
    rewrite Hbig; [repeat split | assumption |].
    rewrite length_firstn. fold payload. lia.
  - intros Hsound Hlen. cbv zeta.
    set (text := customRunText payload).
    destruct (Read_whole (Body r) Hsound Hone) as [err [HR Herr]].
    assert (Hfirst : firstn 513 (io.Payload (Body r)) = payload).
    { apply firstn_all2. fold payload. lia. }
    rewrite Hfirst in HR.
    destruct (checkedCustomRun_cases env r e _ err HR) as [_ [_ [Hno Hyes]]].
    fold text in Hno, Hyes.
    destruct (use (whitelists e)) eqn:Huse;
      [destruct (matched text (whitelist (whitelists e))) eqn:Hm|].
    + rewrite Hyes; [|assumption|assumption|intros _; now apply matched_In].
      split; [|now right]. rewrite admitCustomRun_code. discriminate.
    + rewrite Hno; [|assumption|assumption|reflexivity|].
      * split; [discriminate | now left].
      * intros Hin. apply matched_In in Hin. congruence.
    + rewrite Hyes; [|assumption|assumption|congruence].
      split; [|now right]. rewrite admitCustomRun_code. discriminate.
Qed.

Lemma size_bound_behind_lock_gate_witness :
  registerChefCustomRun sample.env1
    (sample.post (Some "true"%string) [sample.big]) sample.locked
  = (tooLarge, sample.locked).
Proof.
  destruct (size_bound_behind_lock_gate sample.env1
              (sample.post (Some "true"%string) [sample.big]) sample.locked)
    as [_ [H _]]; [reflexivity | simpl; lia |].
  destruct H as [H _]; [reflexivity | vm_compute; lia | exact H].
Defined.

(** The size bound judges what the one read delivered: of a payload of 600
    bytes that arrives in two pieces of 300, the first piece passes the bound
    and becomes the command text. *)
Example body_in_two_pieces :
  let half := repeat "x"%char 300 in
  let r := sample.post None [half; half] in
  let out := registerChefCustomRun sample.env1 r sample.idle in
  length (io.Payload (Body r)) = 600%nat
  /\ StatusCode (fst out) = StatusOK
  /\ (Command <$> Read (draw sample.env1) (state (snd out)))
     = Some (Some (string_of_list_ascii half)).
Proof. vm_compute. repeat split; reflexivity. Qed.

Example small_body_admitted :
  let out :=
    registerChefCustomRun sample.env1
      (sample.post None [sample.text_of "recipe[users]"]) sample.idle in
  StatusCode (fst out) = StatusOK
  /\ (Command <$> Read (draw sample.env1) (state (snd out)))
     = Some (Some "recipe[users]"%string).
Proof. vm_compute. split; reflexivity. Qed.

(** A request stopped at the lock gate is answered 403 as well. *)
Lemma gate_shut (env : Env) (r : Request) (e : HTTPEngine) :
  checklock r && ReadRunLock (state e) = true ->
  registerChefCustomRun env r e
  = (replyWith StatusForbidden (ErrorJSON "Chefwaiter is locked"), e).
Proof. intros Hgate. unfold registerChefCustomRun. now rewrite Hgate. Qed.

(** C7.  Let [text] be the command text of a custom-run request, that is what
    the handler makes of a body it read without failure and within the size
    bound.  When a whitelist is in use, which is the case once [SetWhitelist]
    was called, a text that is no entry of the whitelist is answered 403 with
    the engine unchanged, so no run is created; a text equal to an entry
    passes the whitelist check, and the request, if it was not stopped at the
    lock gate before, ends in the admission of the run.  When no whitelist is
    in use, as in a new engine, every text passes. *)
Theorem whitelist_check (env : Env) (r : Request) (e : HTTPEngine)
    (data : list ascii) (err : option io.error) :
  io.Read (Body r) 513 = (data, err) ->
  err <> Some io.Failure ->
  (length data <= 512)%nat ->
  let text := customRunText data in
  let out := registerChefCustomRun env r e in
  (use (whitelists e) = true -> ~ In text (whitelist (whitelists e)) ->
     StatusCode (fst out) = StatusForbidden
     /\ snd out = e
     /\ (checklock r && ReadRunLock (state e) = false ->
         out = (notWhitelisted text, e)))
  /\ (use (whitelists e) = true -> In text (whitelist (whitelists e)) ->
      checklock r && ReadRunLock (state e) = false ->
        out = admitCustomRun env text e /\ StatusCode (fst out) = StatusOK)
  /\ (use (whitelists e) = false ->
      checklock r && ReadRunLock (state e) = false ->
        out = admitCustomRun env text e /\ StatusCode (fst out) = StatusOK)
  /\ (forall wl : list string,
        use (whitelists (SetWhitelist wl e)) = true
        /\ whitelist (whitelists (SetWhitelist wl e)) = wl)
  /\ (forall (st : StateTable) (w : Worker),
        use (whitelists (New st w)) = false).
Proof.
  intros HR Herr Hn text out. unfold out.
  destruct (checkedCustomRun_cases env r e data err HR) as [_ [_ [Hno Hyes]]].
  fold text in Hno, Hyes.
  split; [|split; [|split; [|split]]].
  - intros Huse Hnot.
    destruct (checklock r && ReadRunLock (state e)) eqn:Hgate.
    + rewrite (gate_shut env r e Hgate). repeat split. discriminate.
    + rewrite (gate_open env r e Hgate), (Hno Herr Hn Huse Hnot).
      repeat split.
  - intros Huse Hin Hgate.
    rewrite (gate_open env r e Hgate), (Hyes Herr Hn (fun _ => Hin)).
    split; [reflexivity | apply admitCustomRun_code].
  - intros Huse Hgate. rewrite (gate_open env r e Hgate).
    rewrite Hyes; [|assumption|assumption|congruence].
    split; [reflexivity | apply admitCustomRun_code].
  - intros wl. split; reflexivity.
  - reflexivity.
Qed.

Lemma whitelist_check_witness :
  StatusCode
    (fst (registerChefCustomRun sample.env1
            (sample.post None [sample.text_of "rm -rf /"])
            sample.whitelisted))
  = StatusForbidden
  /\ StatusCode
       (fst (registerChefCustomRun sample.env1
               (sample.post None [sample.text_of "recipe[base]"])
               sample.whitelisted))
     = StatusOK
  /\ StatusCode
       (fst (registerChefCustomRun sample.env1
               (sample.post None [sample.text_of "rm -rf /"]) sample.idle))
     = StatusOK.
Proof.
  split; [|split].
  - destruct (whitelist_check sample.env1
                (sample.post None [sample.text_of "rm -rf /"])
                sample.whitelisted
                (sample.text_of "rm -rf /") None)
      as [H _]; [reflexivity | discriminate | simpl; lia |].
    destruct H as [H _]; [reflexivity | | exact H].
    vm_compute. intros [H|[H|[]]]; discriminate H.
  - destruct (whitelist_check sample.env1
                (sample.post None [sample.text_of "recipe[base]"])
                sample.whitelisted
                (sample.text_of "recipe[base]") None)
      as [_ [H _]]; [reflexivity | discriminate | simpl; lia |].
    destruct H as [_ H]; [reflexivity | | reflexivity | exact H].
    vm_compute. right. left. reflexivity.
  - destruct (whitelist_check sample.env1
                (sample.post None [sample.text_of "rm -rf /"]) sample.idle
                (sample.text_of "rm -rf /") None)
      as [_ [_ [H _]]]; [reflexivity | discriminate | simpl; lia |].
    destruct H as [_ H]; [reflexivity | reflexivity | exact H].
Defined.

Lemma read_failed_dec (err : option io.error) :
  {err = Some io.Failure} + {err <> Some io.Failure}.
Proof. destruct err as [[|]|]; (now left) || (right; congruence). Qed.

(** C10.  A custom-run request whose force parameter begins with [true] skips
    the lock check and nothing else: whatever the lock, the handler goes
    through the same read, size bound and whitelist as an unforced request on
    an unlocked engine.  More than 512 bytes read, or a failing read, is
    answered 400; with a whitelist in use, a text outside it is answered 403;
    both leave the engine unchanged.  A run is admitted only for a text of at
    most 512 bytes that is an entry of the whitelist when one is in use. *)
Theorem force_skips_lock_only (env : Env) (r : Request) (e : HTTPEngine)
    (data : list ascii) (err : option io.error) :
  checklock r = false ->
  io.Read (Body r) 513 = (data, err) ->
  let text := customRunText data in
  let wl := whitelists e in
  let out := registerChefCustomRun env r e in
  out = checkedCustomRun env r e
  /\ (err = Some io.Failure \/ (512 < length data)%nat ->
        StatusCode (fst out) = StatusBadRequest /\ snd out = e)
  /\ (err <> Some io.Failure -> (length data <= 512)%nat ->
        use wl = true -> ~ In text (whitelist wl) ->
        StatusCode (fst out) = StatusForbidden /\ snd out = e)
  /\ (err <> Some io.Failure -> (length data <= 512)%nat ->
        (use wl = true -> In text (whitelist wl)) ->
        out = admitCustomRun env text e)
  /\ (StatusCode (fst out) = StatusOK ->
        out = admitCustomRun env text e
        /\ (String.length text <= 512)%nat
        /\ (use wl = true -> In text (whitelist wl))).
Proof.
  intros Hforce HR text wl out.
  assert (Hout : out = checkedCustomRun env r e).
  { unfold out. apply gate_open. now rewrite Hforce. }
  destruct (checkedCustomRun_cases env r e data err HR)
    as [Hfail [Hbig [Hno Hyes]]].
  fold text in Hno, Hyes. fold wl in Hno, Hyes.
  split; [assumption|]. rewrite Hout. split; [|split; [|split]].
  - intros [Hf | Hn].
    + now rewrite (Hfail Hf).
    + destruct (read_failed_dec err) as [Hf | Hf].
      * now rewrite (Hfail Hf).
      * now rewrite (Hbig Hf Hn).
  - intros Hf Hn Huse Hnot. now rewrite (Hno Hf Hn Huse Hnot).
  - intros Hf Hn Hin. exact (Hyes Hf Hn Hin).
  - intros Hok.
    destruct (read_failed_dec err) as [Hf | Hf].
    { rewrite (Hfail Hf) in Hok. vm_compute in Hok. congruence. }
    destruct (Nat.le_gt_cases (length data) 512) as [Hn | Hn].
    2: { rewrite (Hbig Hf Hn) in Hok. vm_compute in Hok. congruence. }
    assert (Hin : use wl = true -> In text (whitelist wl)).
    { intros Huse.
      destruct (matched text (whitelist wl)) eqn:Hm;
        [now apply matched_In|].
      assert (Hnot : ~ In text (whitelist wl)).
      { intros Hin. apply matched_In in Hin. congruence. }
      rewrite (Hno Hf Hn Huse Hnot) in Hok. vm_compute in Hok. congruence. }
    split; [exact (Hyes Hf Hn Hin)|]. split; [|assumption].
    pose proof (customRunText_length data). fold text in H. lia.
Qed.

Lemma force_skips_lock_only_witness :
  StatusCode
    (fst (registerChefCustomRun sample.env1
            (sample.post (Some "true"%string) [sample.big]) sample.lockedWhitelisted))
  = StatusBadRequest
  /\ StatusCode
       (fst (registerChefCustomRun sample.env1
               (sample.post (Some "true"%string)
                  [sample.text_of "rm -rf /"]) sample.lockedWhitelisted))
     = StatusForbidden
  /\ registerChefCustomRun sample.env1
       (sample.post (Some "true"%string) [sample.text_of "recipe[base]"])
       sample.lockedWhitelisted
     = admitCustomRun sample.env1 "recipe[base]" sample.lockedWhitelisted.
Proof.
  split; [|split].
  - destruct (force_skips_lock_only sample.env1
                (sample.post (Some "true"%string) [sample.big])
                sample.lockedWhitelisted
                (firstn 513 sample.big) None)
      as [_ [H _]]; [reflexivity | reflexivity |].
    destruct H as [H _]; [right; vm_compute; lia | exact H].
  - destruct (force_skips_lock_only sample.env1
                (sample.post (Some "true"%string)
                   [sample.text_of "rm -rf /"])
                sample.lockedWhitelisted
                (sample.text_of "rm -rf /") None)
      as [_ [_ [H _]]]; [reflexivity | reflexivity |].
    destruct H as [H _];
      [discriminate | simpl; lia | reflexivity | | exact H].
    vm_compute. intros [H|[H|[]]]; discriminate H.
  - destruct (force_skips_lock_only sample.env1
                (sample.post (Some "true"%string)
                   [sample.text_of "recipe[base]"])
                sample.lockedWhitelisted
                (sample.text_of "recipe[base]") None)
      as [_ [_ [_ [H _]]]]; [reflexivity | reflexivity |].
    apply H; [discriminate | simpl; lia |].
    intros _. vm_compute. right. left. reflexivity.
Defined.

Example forced_run_on_locked_engine :
  let e := sample.lockedWhitelisted in
  let out :=
    registerChefCustomRun sample.env1
      (sample.post (Some "true"%string) [sample.text_of "recipe[base]"]) e in
  ReadRunLock (state e) = true
  /\ StatusCode (fst out) = StatusOK
  /\ (Command <$> Read (draw sample.env1) (state (snd out)))
     = Some (Some "recipe[base]"%string).
Proof. vm_compute. repeat split; reflexivity. Qed.

(** * Further properties of the engine and of the other sources *)

Import server.

(** ** strings.Split *)

Lemma Split_nonempty (s : string) (sep : ascii) : gostrings.Split s sep <> [].
Proof.
  destruct s as [|c r]; simpl; [discriminate|].
  destruct (Ascii.eqb c sep); [discriminate|].
  destruct (gostrings.Split r sep); discriminate.
Qed.

Lemma Join_cons (piece : string) (rest : list string) (sep : ascii) :
  rest <> [] ->
  gostrings.Join (piece :: rest) sep
  = piece +:+ String sep (gostrings.Join rest sep).
Proof. destruct rest; [congruence | reflexivity]. Qed.

Lemma Join_Split (s : string) (sep : ascii) :
  gostrings.Join (gostrings.Split s sep) sep = s.
Proof.
  induction s as [|c r IH]; simpl; [reflexivity|].
  pose proof (Split_nonempty r sep) as Hne.
  destruct (Ascii.eqb c sep) eqn:E.
  - apply Ascii.eqb_eq in E. subst c.
    rewrite Join_cons by assumption. now rewrite IH.
  - destruct (gostrings.Split r sep) as [|piece pieces]; [congruence|].
    destruct pieces as [|p2 ps]; [simpl in *; congruence|].
    rewrite Join_cons by discriminate.
    rewrite Join_cons in IH by discriminate. rewrite <- IH. reflexivity.
Qed.

Lemma Split_no_sep (s : string) (sep : ascii) :
  gostrings.hasByte sep s = false -> gostrings.Split s sep = [s].
Proof.
  induction s as [|c r IH]; simpl; [reflexivity|]. intros H.
  apply orb_false_iff in H. destruct H as [Hc Hr].
  rewrite Hc, (IH Hr). reflexivity.
Qed.

Lemma Split_at_sep (a b : string) (sep : ascii) :
  gostrings.hasByte sep a = false ->
  gostrings.Split (a +:+ String sep b) sep = a :: gostrings.Split b sep.
Proof.
  induction a as [|c r IH]; intros H.
  - simpl. now rewrite Ascii.eqb_refl.
  - simpl in H. apply orb_false_iff in H. destruct H as [Hc Hr].
    change (gostrings.Split (String c (r +:+ String sep b)) sep
            = String c r :: gostrings.Split b sep).
    cbn [gostrings.Split]. now rewrite Hc, (IH Hr).
Qed.

Lemma Split_pieces_clean (s : string) (sep : ascii) :
  Forall (fun piece => gostrings.hasByte sep piece = false)
         (gostrings.Split s sep).
Proof.
  induction s as [|c r IH]; simpl; [now repeat constructor|].
  destruct (Ascii.eqb c sep) eqn:E; [constructor; [reflexivity | exact IH]|].
  destruct (gostrings.Split r sep) as [|piece pieces].
  - constructor; [|constructor]. simpl. now rewrite E.
  - inversion IH; subst. constructor; [|assumption]. simpl. now rewrite E.
Qed.

(** A string with the separator in it is cut into two pieces at least. *)
Lemma Split_with_sep (s : string) (sep : ascii) :
  gostrings.hasByte sep s = true ->
  exists p1 p2 rest, gostrings.Split s sep = p1 :: p2 :: rest.
Proof.
  induction s as [|c r IH]; simpl; [discriminate|]. intros H.
  destruct (Ascii.eqb c sep) eqn:E.
  - destruct (gostrings.Split r sep) as [|p ps] eqn:Er;
      [now apply Split_nonempty in Er|]. now exists EmptyString, p, ps.
  - simpl in H. destruct (IH H) as [p1 [p2 [rest ->]]].
    now exists (String c p1), p2, rest.
Qed.

Example Split_version :
  gostrings.Split "Chef: 12.19.36" " " = ["Chef:"; "12.19.36"]%string.
Proof. reflexivity. Qed.

Example Split_path :
  gostrings.Split "/chef/interval/30" "/"
  = [""; "chef"; "interval"; "30"]%string.
Proof. reflexivity. Qed.

Example Split_empty : gostrings.Split "" " " = [""%string].
Proof. reflexivity. Qed.

(** ** The router *)

Lemma matchSegments_compatible (t1 t2 : mux.Template) (segs : list string)
    (v1 v2 w1 w2 : gmap string string) :
  mux.matchSegments t1 segs v1 = Some w1 ->
  mux.matchSegments t2 segs v2 = Some w2 ->
  mux.compatible t1 t2 = true.
Proof.
  revert t2 segs v1 v2.
  induction t1 as [|s1 t1 IH]; intros t2 segs v1 v2 H1 H2.
  - destruct segs; [|discriminate]. destruct t2 as [|[a|a] t2]; [reflexivity| |];
      discriminate.
  - destruct segs as [|seg segs]; [destruct s1; discriminate|].
    destruct t2 as [|s2 t2]; [discriminate|].
    destruct s1 as [a|a], s2 as [b|b]; simpl in *.
    + destruct (String.eqb a seg) eqn:Ea; [|discriminate].
      destruct (String.eqb b seg) eqn:Eb; [|discriminate].
      apply String.eqb_eq in Ea, Eb. subst.
      rewrite String.eqb_refl. simpl. eapply IH; eassumption.
    + destruct (String.eqb a seg); [|discriminate].
      destruct (String.eqb seg ""); [discriminate|]. eapply IH; eassumption.
    + destruct (String.eqb seg ""); [discriminate|].
      destruct (String.eqb b seg); [|discriminate]. eapply IH; eassumption.
    + destruct (String.eqb seg ""); [discriminate|]. eapply IH; eassumption.
Qed.

Lemma Match_any_order (rs : list Route) (method path : string) (r : Route)
    (vars : gmap string string) :
  noClash rs = true ->
  In r rs ->
  methods r = method ->
  mux.matchPath (template r) path = Some vars ->
  Match rs method path = Some (handler r, vars).
Proof.
  induction rs as [|r0 rest IH]; intros Hno Hin Hm Hp; [contradiction|].
  simpl in Hno. apply andb_true_iff in Hno. destruct Hno as [Hhead Hrest].
  cbn [Match]. unfold fits.
  destruct Hin as [-> | Hin].
  - rewrite Hm, String.eqb_refl, Hp. reflexivity.
  - destruct (String.eqb (methods r0) method) eqn:Em;
      [|now apply IH].
    destruct (mux.matchPath (template r0) path) as [v0|] eqn:Ep;
      [|now apply IH].
    exfalso. rewrite forallb_forall in Hhead. specialize (Hhead r Hin).
    apply negb_true_iff in Hhead. unfold clash in Hhead.
    apply String.eqb_eq in Em. rewrite Em, Hm, String.eqb_refl in Hhead.
    simpl in Hhead. unfold mux.matchPath in Ep, Hp.
    destruct (gostrings.Split path "/") as [|[|] segs]; try discriminate.
    rewrite (matchSegments_compatible _ _ _ _ _ _ _ Ep Hp) in Hhead.
    discriminate.
Qed.

(** X1.  The routes registered by [New] never compete: a route whose method
    and path template fit a request is the route the router picks for it,
    whatever came before it in the registration. *)
Theorem route_serves_what_it_fits (method path : string) (r : Route)
    (vars : gmap string string) :
  In r routes ->
  methods r = method ->
  mux.matchPath (template r) path = Some vars ->
  Match routes method path = Some (handler r, vars).
Proof. apply Match_any_order. vm_compute. reflexivity. Qed.

Lemma route_serves_what_it_fits_witness :
  Match routes "GET" "/chef/maintenance/start/15"
  = Some (setChefMaintenanceH, {[ "i"%string := "15"%string ]}).
Proof.
  apply (route_serves_what_it_fits "GET" "/chef/maintenance/start/15"
           (HandleFunc [mux.Lit "chef"; mux.Lit "maintenance";
                        mux.Lit "start"; mux.Var "i"]
              setChefMaintenanceH "Get")
           {[ "i"%string := "15"%string ]}).
  - vm_compute. tauto.
  - reflexivity.
  - vm_compute. reflexivity.
Defined.

Lemma routes_noClash : noClash routes = true.
Proof. vm_compute. reflexivity. Qed.

(** What [Match] finds is a registered route that fits. *)
Lemma Match_found (rs : list Route) (method path : string) (h : Handler)
    (vars : gmap string string) :
  Match rs method path = Some (h, vars) ->
  exists r, In r rs /\ methods r = method /\ handler r = h
            /\ mux.matchPath (template r) path = Some vars.
Proof.
  induction rs as [|r0 rest IH]; cbn [Match]; [discriminate|]. intros H.
  unfold fits in H.
  destruct (String.eqb (methods r0) method) eqn:Em.
  - destruct (mux.matchPath (template r0) path) as [v0|] eqn:Ep.
    + inversion H; subst. exists r0. apply String.eqb_eq in Em.
      repeat split; auto. now left.
    + destruct (IH H) as [r [Hin Hr]]. exists r. split; [now right | exact Hr].
  - destruct (IH H) as [r [Hin Hr]]. exists r. split; [now right | exact Hr].
Qed.

Lemma matchPath_split (t : mux.Template) (path : string)
    (segs : list string) :
  gostrings.Split path "/" = EmptyString :: segs ->
  mux.matchPath t path = mux.matchSegments t segs ∅.
Proof. intros H. unfold mux.matchPath. now rewrite H. Qed.

Lemma Split_under (dir g : string) :
  gostrings.hasByte "/" dir = false ->
  gostrings.Split (String "/" (dir +:+ String "/" g)) "/"
  = EmptyString :: dir :: gostrings.Split g "/".
Proof.
  intros Hdir. cbn [gostrings.Split]. rewrite Ascii.eqb_refl.
  now rewrite Split_at_sep.
Qed.

Lemma no_route_for_segments (path : string) (segs : list string) :
  gostrings.Split path "/" = EmptyString :: segs ->
  Forall (fun r => mux.matchSegments (template r) segs ∅ = None) routes ->
  forall method, Match routes method path = None.
Proof.
  intros Hsplit Hall method.
  destruct (Match routes method path) as [[h vars]|] eqn:E; [|reflexivity].
  destruct (Match_found _ _ _ _ _ E) as [r [Hin [_ [_ Hp]]]].
  rewrite List.Forall_forall in Hall.
  rewrite (matchPath_split _ _ _ Hsplit), (Hall r Hin) in Hp. discriminate.
Qed.

Lemma Match_guid (g : string) :
  (g <> EmptyString -> gostrings.hasByte "/" g = false ->
     Match routes "GET" ("/chefclient/" +:+ g)
     = Some (getChefStatusH, {[ "guid"%string := g ]})
     /\ Match routes "GET" ("/cheflogs/" +:+ g)
        = Some (getChefLogsH, {[ "guid"%string := g ]}))
  /\ (g = EmptyString \/ gostrings.hasByte "/" g = true ->
        Match routes "GET" ("/chefclient/" +:+ g) = None
        /\ Match routes "GET" ("/cheflogs/" +:+ g) = None).
Proof.
  split.
  - intros Hne Hclean.
    assert (Hg : String.eqb g "" = false) by now apply String.eqb_neq.
    split.
    + apply (Match_any_order routes "GET" _
               (HandleFunc [mux.Lit "chefclient"; mux.Var "guid"]
                  getChefStatusH "Get"));
        [exact routes_noClash | vm_compute; tauto | reflexivity |].
      erewrite matchPath_split;
        [|change ("/chefclient/" +:+ g)
            with (String "/" ("chefclient" +:+ String "/" g));
          rewrite Split_under by reflexivity;
          now rewrite (Split_no_sep g "/" Hclean)].
      simpl. now rewrite Hg.
    + apply (Match_any_order routes "GET" _
               (HandleFunc [mux.Lit "cheflogs"; mux.Var "guid"]
                  getChefLogsH "Get"));
        [exact routes_noClash | vm_compute; tauto | reflexivity |].
      erewrite matchPath_split;
        [|change ("/cheflogs/" +:+ g)
            with (String "/" ("cheflogs" +:+ String "/" g));
          rewrite Split_under by reflexivity;
          now rewrite (Split_no_sep g "/" Hclean)].
      simpl. now rewrite Hg.
  - intros [-> | Hslash]; [split; reflexivity|].
    destruct (Split_with_sep g "/" Hslash) as [p1 [p2 [rest Hsplit]]].
    assert (H1 : gostrings.Split ("/chefclient/" +:+ g) "/"
                 = EmptyString :: "chefclient"%string :: p1 :: p2 :: rest).
    { change ("/chefclient/" +:+ g)
        with (String "/" ("chefclient" +:+ String "/" g)).
      rewrite Split_under by reflexivity. now rewrite Hsplit. }
    assert (H2 : gostrings.Split ("/cheflogs/" +:+ g) "/"
                 = EmptyString :: "cheflogs"%string :: p1 :: p2 :: rest).
    { change ("/cheflogs/" +:+ g)
        with (String "/" ("cheflogs" +:+ String "/" g)).
      rewrite Split_under by reflexivity. now rewrite Hsplit. }
    split.
    + apply (no_route_for_segments _ _ H1).
      cbv delta [routes] zeta. unfold HandleFunc.
      repeat constructor; simpl; try reflexivity;
        destruct (String.eqb p1 ""); reflexivity.
    + apply (no_route_for_segments _ _ H2).
      cbv delta [routes] zeta. unfold HandleFunc.
      repeat constructor; simpl; try reflexivity;
        destruct (String.eqb p1 ""); reflexivity.
Qed.

Lemma Split_guid_path (dir g : string) :
  gostrings.hasByte "/" dir = false ->
  gostrings.hasByte "/" g = false ->
  gostrings.Split (String "/" (dir +:+ String "/" g)) "/"
  = [EmptyString; dir; g].
Proof.
  intros Hdir Hg. rewrite (Split_under dir g Hdir).
  now rewrite (Split_no_sep g "/" Hg).
Qed.

(** X2.  GET /chefclient/guid and GET /cheflogs/guid hand the handler exactly
    the text behind the last slash, for every text that is not empty, has no
    slash in it and is not one or two dots; the empty identifier, one with a
    slash in it, and the identifiers of one and of two dots reach no handler
    at all. *)
Theorem guid_of_the_path (g : string) :
  (g <> EmptyString -> gostrings.hasByte "/" g = false ->
   mux.dots g = false ->
     dispatch "GET" ("/chefclient/" +:+ g)
     = Some (getChefStatusH, {[ "guid"%string := g ]})
     /\ dispatch "GET" ("/cheflogs/" +:+ g)
        = Some (getChefLogsH, {[ "guid"%string := g ]}))
  /\ (g = EmptyString \/ gostrings.hasByte "/" g = true
      \/ mux.dots g = true ->
        dispatch "GET" ("/chefclient/" +:+ g) = None
        /\ dispatch "GET" ("/cheflogs/" +:+ g) = None).
Proof.
  destruct (Match_guid g) as [Hyes Hno]. split.
  - intros Hne Hslash Hdots. destruct (Hyes Hne Hslash) as [H1 H2].
    unfold dispatch, mux.isClean.
    change ("/chefclient/" +:+ g)
      with (String "/" ("chefclient" +:+ String "/" g)) in *.
    change ("/cheflogs/" +:+ g)
      with (String "/" ("cheflogs" +:+ String "/" g)) in *.
    rewrite !Split_guid_path by (reflexivity || assumption).
    cbn [mux.cleanSegments]. rewrite Hdots. simpl. auto.
  - intros [Hempty | [Hslash | Hdots]].
    + destruct Hno as [H1 H2]; [now left|].
      unfold dispatch. rewrite H1, H2.
      split; [destruct (mux.isClean _) | destruct (mux.isClean _)];
        reflexivity.
    + destruct Hno as [H1 H2]; [now right|].
      unfold dispatch. rewrite H1, H2.
      split; [destruct (mux.isClean _) | destruct (mux.isClean _)];
        reflexivity.
    + unfold mux.dots in Hdots. apply orb_true_iff in Hdots.
      destruct Hdots as [Hd | Hd]; apply String.eqb_eq in Hd; subst g;
        split; reflexivity.
Qed.

Lemma guid_of_the_path_witness :
  dispatch "GET" "/chefclient/35434398-b40a-4686-ab38-38deccd4241b"
  = Some (getChefStatusH,
          {[ "guid"%string
             := "35434398-b40a-4686-ab38-38deccd4241b"%string ]})
  /\ dispatch "GET" "/chefclient/a/b" = None
  /\ dispatch "GET" "/chefclient/.." = None.
Proof.
  split; [|split].
  - destruct (guid_of_the_path "35434398-b40a-4686-ab38-38deccd4241b")
      as [H _].
    destruct H as [H _];
      [discriminate | reflexivity | reflexivity | exact H].
  - destruct (guid_of_the_path "a/b") as [_ H].
    destruct H as [H _]; [right; left; reflexivity | exact H].
  - destruct (guid_of_the_path "..") as [_ H].
    destruct H as [H _]; [right; right; reflexivity | exact H].
Defined.

Lemma Match_methods (method path : string) (h : Handler)
    (vars : gmap string string) :
  Match routes method path = Some (h, vars) ->
  method = "GET"%string
  \/ (method = "POST"%string /\ h = registerChefCustomRunH
      /\ path = "/chefclient"%string).
Proof.
  intros H. destruct (Match_found _ _ _ _ _ H) as [r [Hin [Hm [Hh Hp]]]].
  assert (Hall : Forall (fun r => methods r = "GET"%string
                          \/ (methods r = "POST"%string
                              /\ handler r = registerChefCustomRunH
                              /\ template r = [mux.Lit "chefclient"]))
                   routes).
  { cbv delta [routes] zeta.
    repeat (apply List.Forall_cons;
            [first [left; reflexivity | right; repeat split; reflexivity]|]).
    apply List.Forall_nil. }
  rewrite List.Forall_forall in Hall.
  destruct (Hall r Hin) as [Hg | [Hpost [Hr Ht]]]; [left; congruence|].
  right. repeat split; try congruence.
  rewrite Ht in Hp. unfold mux.matchPath in Hp.
  pose proof (Join_Split path "/") as HJ.
  destruct (gostrings.Split path "/") as [|first segs]; [discriminate|].
  destruct first; [|discriminate].
  destruct segs as [|seg segs]; cbn [mux.matchSegments] in Hp;
    [discriminate|].
  revert Hp. destruct (String.eqb "chefclient" seg) eqn:E; [|discriminate].
  apply String.eqb_eq in E. subst seg.
  destruct segs; [intros _ | discriminate]. now rewrite <- HJ.
Qed.

(** X3.  Every route but one answers to GET alone: a request with another
    method than GET or POST, also get in lower case, reaches no handler, and
    the only handler a POST reaches is the one for custom runs, on the path
    /chefclient. *)
Theorem methods_of_the_routes (method path : string) (h : Handler)
    (vars : gmap string string) :
  dispatch method path = Some (h, vars) ->
  method = "GET"%string
  \/ (method = "POST"%string /\ h = registerChefCustomRunH
      /\ path = "/chefclient"%string).
Proof.
  unfold dispatch. destruct (mux.isClean path); [|discriminate].
  apply Match_methods.
Qed.

Lemma methods_of_the_routes_witness :
  "POST"%string = "GET"%string
  \/ ("POST"%string = "POST"%string
      /\ registerChefCustomRunH = registerChefCustomRunH
      /\ "/chefclient"%string = "/chefclient"%string).
Proof.
  apply (methods_of_the_routes "POST" "/chefclient" registerChefCustomRunH ∅).
  vm_compute. reflexivity.
Defined.

Example lower_case_get_not_served :
  dispatch "get" "/chef/lock/set" = None
  /\ dispatch "HEAD" "/healthcheck" = None
  /\ dispatch "POST" "/chef/lock/remove" = None
  /\ dispatch "GET" "/chef//lock/set" = None
  /\ dispatch "GET" "/chef/lock/set/" = None.
Proof. vm_compute. repeat split; reflexivity. Qed.

(** ** What a sequence of requests can and cannot change *)

Ltac open_handlers :=
  unfold call, lift, server.setChefRunEnabled, server.setChefRunDisabled,
    registerChefRun, registerChefCustomRun, setChefRunInterval,
    setChefMaintenance, removeChefMaintenance, setChefLock, removeChefLock,
    OnDemandRun, CustomRun, requestRun, jsonMarshal, withState, ReadRunLock.

Ltac split_cases :=
  repeat match goal with
         | |- context [match ?x with _ => _ end] => destruct x eqn:?
         end.

Ltac finish_runs :=
  repeat match goal with
         | H : match Slot ?w with _ => _ end = _ |- _ =>
             destruct (Slot w); inversion H; subst; clear H
         end.

Lemma fold_left_invariant {A B : Type} (f : A -> B -> A) (P : A -> Prop)
    (allowed : B -> Prop) :
  (forall x a, allowed x -> P a -> P (f a x)) ->
  forall l a, Forall allowed l -> P a -> P (fold_left f l a).
Proof.
  intros Hstep l a Hall. revert a.
  induction Hall as [|x rest Hx Hr IH]; intros a HP; [exact HP|].
  exact (IH (f a x) (Hstep x a Hx HP)).
Qed.

(** An invariant of every single request holds after a sequence of them. *)
Lemma afterAll_invariant (P : HTTPEngine -> Prop) (allowed : Hit -> Prop) :
  (forall hit e, allowed hit -> P e -> P (after hit e)) ->
  forall hits e, Forall allowed hits -> P e -> P (afterAll hits e).
Proof.
  intros Hstep hits e Hall HP. unfold afterAll.
  apply (fold_left_invariant (fun e hit => after hit e) P allowed);
    assumption.
Qed.

Lemma after_call (hit : Hit) (e : HTTPEngine) :
  after hit e
  = match dispatch (Method hit) (Path hit) with
    | Some (h, vars) => snd (call h vars (World hit) (Req hit) e)
    | None => e
    end.
Proof.
  unfold after, ServeHTTP.
  destruct (dispatch (Method hit) (Path hit)) as [[h vars]|];
    [|reflexivity].
  now destruct (call h vars (World hit) (Req hit) e).
Qed.

Lemma call_keeps_whitelists (h : Handler) (vars : gmap string string)
    (o : Outside) (r : Request) (e : HTTPEngine) :
  whitelists (snd (call h vars o r e)) = whitelists e.
Proof. destruct h; open_handlers; simpl; split_cases; reflexivity. Qed.

(** X4.  No request changes the whitelist: after any sequence of requests,
    to whatever routes and with whatever bodies, the whitelist and its
    in-use flag are those the engine started with; a whitelist set by
    [SetWhitelist] stays in force. *)
Theorem whitelist_out_of_reach (hits : list Hit) (e : HTTPEngine) :
  whitelists (afterAll hits e) = whitelists e
  /\ (forall wl, whitelists (afterAll hits (SetWhitelist wl e))
                 = {| whitelist := wl; use := true |}).
Proof.
  assert (H : forall e0, whitelists (afterAll hits e0) = whitelists e0).
  { intros e0.
    apply (afterAll_invariant (fun e' => whitelists e' = whitelists e0)
             (fun _ => True)); [| |reflexivity].
    - intros hit e1 _ He1. rewrite after_call.
      destruct (dispatch (Method hit) (Path hit)) as [[h vars]|];
        [|assumption].
      now rewrite call_keeps_whitelists.
    - clear. induction hits; constructor; auto. }
  split; [apply H|]. intros wl. now rewrite H.
Qed.

Lemma call_keeps_interval_positive (h : Handler) (vars : gmap string string)
    (o : Outside) (r : Request) (e : HTTPEngine) :
  0 < ChefRunTimer (state e) ->
  0 < ChefRunTimer (state (snd (call h vars o r e))).
Proof.
  intros Hpos.
  destruct h; open_handlers; simpl; split_cases; finish_runs; simpl;
    try assumption.
  match goal with H : (_ <=? 0) = false |- _ => apply Z.leb_gt in H end.
  assumption.
Qed.

(** X5.  The interval stays positive: if the stored run interval is positive,
    it is positive after any sequence of requests, whatever numbers or texts
    the requests to /chef/interval carry. *)
Theorem interval_stays_positive (hits : list Hit) (e : HTTPEngine) :
  0 < ReadChefRunTimer (state e) ->
  0 < ReadChefRunTimer (state (afterAll hits e)).
Proof.
  intros Hpos.
  apply (afterAll_invariant (fun e' => 0 < ChefRunTimer (state e'))
           (fun _ => True)); [| |exact Hpos].
  - intros hit e1 _ He1. rewrite after_call.
    destruct (dispatch (Method hit) (Path hit)) as [[h vars]|];
      [|assumption].
    now apply call_keeps_interval_positive.
  - clear. induction hits; constructor; auto.
Qed.

Lemma call_behind_lock (h : Handler) (vars : gmap string string)
    (o : Outside) (r : Request) (e : HTTPEngine) :
  RunLock (state e) = true ->
  h <> removeChefLockH ->
  (h = registerChefCustomRunH -> checklock r = true) ->
  let e' := snd (call h vars o r e) in
  Jobs (state e') = Jobs (state e)
  /\ worker e' = worker e
  /\ RunLock (state e') = true.
Proof.
  intros Hlock Hrm Hforce.
  destruct h; try congruence;
    try (open_handlers; simpl; rewrite ?Hlock; split_cases; simpl;
         repeat split; (reflexivity || assumption)).
  unfold call, lift, registerChefCustomRun, ReadRunLock.
  rewrite (Hforce eq_refl), Hlock. simpl. repeat split. assumption.
Qed.

(** X6.  Behind the lock nothing is admitted: with the run lock set, after
    any sequence of requests that holds neither GET /chef/lock/remove nor a
    POST /chefclient with the force override, the lock is still set and the
    job table and the queue slot are what they were. *)
Theorem locked_engine_admits_nothing (hits : list Hit) (e : HTTPEngine) :
  ReadRunLock (state e) = true ->
  Forall (fun hit => passesLock hit = false) hits ->
  let e' := afterAll hits e in
  Jobs (state e') = Jobs (state e)
  /\ worker e' = worker e
  /\ ReadRunLock (state e') = true.
Proof.
  intros Hlock Hall.
  apply (afterAll_invariant
           (fun e' => Jobs (state e') = Jobs (state e)
                      /\ worker e' = worker e
                      /\ RunLock (state e') = true)
           (fun hit => passesLock hit = false)); [|assumption|auto].
  intros hit e1 Hpass [HJ [HW HL]]. rewrite after_call.
  unfold passesLock in Hpass.
  destruct (dispatch (Method hit) (Path hit)) as [[h vars]|];
    [|auto].
  destruct (call_behind_lock h vars (World hit) (Req hit) e1 HL)
    as [HJ' [HW' HL']].
  - intros ->. discriminate.
  - intros ->. now apply negb_false_iff in Hpass.
  - rewrite HJ', HW'. auto.
Qed.

Lemma call_keeps_lock (h : Handler) (vars : gmap string string)
    (o : Outside) (r : Request) (e : HTTPEngine) :
  h <> setChefLockH -> h <> removeChefLockH ->
  RunLock (state (snd (call h vars o r e))) = RunLock (state e).
Proof.
  intros Hs Hr.
  destruct h; try congruence; open_handlers; simpl; split_cases;
    finish_runs; simpl; congruence.
Qed.

(** X7.  The lock has two switches only: after any sequence of requests
    that holds neither GET /chef/lock/set nor GET /chef/lock/remove the run
    lock is what it was; no run, no interval or maintenance request and no
    forced custom run sets or clears it. *)
Theorem lock_changes_by_lock_routes_only (hits : list Hit) (e : HTTPEngine) :
  Forall (fun hit => writesLock hit = false) hits ->
  ReadRunLock (state (afterAll hits e)) = ReadRunLock (state e).
Proof.
  intros Hall.
  apply (afterAll_invariant
           (fun e' => RunLock (state e') = RunLock (state e))
           (fun hit => writesLock hit = false)); [|assumption|reflexivity].
  intros hit e1 Hw He1. rewrite after_call. unfold writesLock in Hw.
  destruct (dispatch (Method hit) (Path hit)) as [[h vars]|];
    [|assumption].
  rewrite call_keeps_lock; [assumption| |]; intros ->; discriminate.
Qed.

Lemma whitelist_out_of_reach_example :
  whitelists (afterAll [traffic.get "/chef/lock/set";
                        traffic.postRun (Some "true"%string) "recipe[base]";
                        traffic.get "/chef/interval/600"]
                sample.whitelisted)
  = {| whitelist := sample.recipes; use := true |}.
Proof. vm_compute. reflexivity. Qed.

Lemma interval_stays_positive_witness :
  0 < ReadChefRunTimer
        (state (afterAll [traffic.get "/chef/interval/0";
                          traffic.get "/chef/interval/-5";
                          traffic.get "/chef/interval/600";
                          traffic.get "/chef/interval/abc"] sample.idle)).
Proof.
  apply (interval_stays_positive
           [traffic.get "/chef/interval/0"; traffic.get "/chef/interval/-5";
            traffic.get "/chef/interval/600";
            traffic.get "/chef/interval/abc"] sample.idle).
  simpl. lia.
Defined.

Lemma locked_engine_admits_nothing_witness :
  Jobs (state (afterAll [traffic.get "/chefclient";
                         traffic.postRun None "recipe[base]";
                         traffic.postRun (Some "false"%string) "recipe[base]";
                         traffic.get "/chef/lock/set";
                         traffic.get "/chef/on"] sample.locked))
  = Jobs (state sample.locked).
Proof.
  destruct (locked_engine_admits_nothing
              [traffic.get "/chefclient";
               traffic.postRun None "recipe[base]";
               traffic.postRun (Some "false"%string) "recipe[base]";
               traffic.get "/chef/lock/set";
               traffic.get "/chef/on"] sample.locked)
    as [H _]; [reflexivity | | exact H].
  repeat (apply List.Forall_cons; [vm_compute; reflexivity|]).
  apply List.Forall_nil.
Defined.

Lemma lock_changes_by_lock_routes_only_witness :
  ReadRunLock
    (state (afterAll [traffic.postRun (Some "true"%string) "recipe[base]";
                      traffic.get "/chef/maintenance/end";
                      traffic.get "/chef/off"] sample.locked))
  = ReadRunLock (state sample.locked).
Proof.
  apply (lock_changes_by_lock_routes_only
           [traffic.postRun (Some "true"%string) "recipe[base]";
            traffic.get "/chef/maintenance/end";
            traffic.get "/chef/off"] sample.locked).
  repeat (apply List.Forall_cons; [vm_compute; reflexivity|]).
  apply List.Forall_nil.
Defined.

(** The force override does pass the lock: the same engine, locked, admits
    the forced run. *)
Example forced_run_passes_lock :
  let e := afterAll [traffic.postRun (Some "true"%string) "recipe[base]"]
             sample.locked in
  size (Jobs (state e)) = 1%nat /\ ReadRunLock (state e) = true.
Proof. vm_compute. split; reflexivity. Qed.

(** ** The lock, end to end *)

Lemma serve_get (path : string) (h : Handler) (vars : gmap string string)
    (e : HTTPEngine) :
  dispatch "GET" path = Some (h, vars) ->
  ServeHTTP (traffic.get path) e
  = Some (call h vars traffic.world (sample.post None []) e).
Proof.
  intros H. unfold ServeHTTP, traffic.get. cbn [Method Path Req World].
  now rewrite H.
Qed.

(** X8.  Through the router: after GET /chef/lock/set, whatever the engine
    was, GET /chefclient is answered 403 and changes nothing and GET
    /chef/lock reports the lock; after GET /chef/lock/remove, GET /chefclient
    is answered 200 again. *)
Theorem lock_switches_end_to_end (e : HTTPEngine) :
  let locked := after (traffic.get "/chef/lock/set") e in
  let unlocked := after (traffic.get "/chef/lock/remove") locked in
  ServeHTTP (traffic.get "/chefclient") locked
  = Some ({| Code := StatusForbidden;
             Sent := Plain (ErrorJSON "Chefwaiter is locked") |}, locked)
  /\ (fst <$> ServeHTTP (traffic.get "/chef/lock") locked)
     = Some (ok (Plain (LockedJSON true)))
  /\ (Code <$> (fst <$> ServeHTTP (traffic.get "/chefclient") unlocked))
     = Some StatusOK
  /\ (fst <$> ServeHTTP (traffic.get "/chef/lock") unlocked)
     = Some (ok (Plain (LockedJSON false))).
Proof.
  cbv zeta.
  assert (Hl : after (traffic.get "/chef/lock/set") e
               = withState (LockRuns true (state e)) e).
  { rewrite after_call. reflexivity. }
  rewrite Hl. set (locked := withState (LockRuns true (state e)) e).
  assert (Hu : after (traffic.get "/chef/lock/remove") locked
               = withState (LockRuns false (state locked)) locked).
  { rewrite after_call. reflexivity. }
  rewrite Hu.
  rewrite !(serve_get "/chefclient" registerChefRunH ∅) by reflexivity.
  rewrite !(serve_get "/chef/lock" getChefLockH ∅) by reflexivity.
  repeat split.
  unfold call, lift, registerChefRun, OnDemandRun, requestRun.
  simpl. destruct (Slot (worker e)); reflexivity.
Qed.

(** ** The command text of a custom run *)

Lemma customRunText_trims (data : list ascii) :
  customRunText data = string_of_list_ascii (bytes.TrimRight data [NUL]).
Proof. unfold customRunText, bodySlurp. now rewrite TrimRight_padding. Qed.

Lemma repeat_app_NUL (k m : nat) :
  repeat NUL k ++ repeat NUL m = repeat NUL (k + m).
Proof. induction k; simpl; congruence. Qed.

Lemma customRunText_zero_tail (data : list ascii) (k : nat) :
  customRunText (data ++ repeat NUL k) = customRunText data.
Proof. now rewrite !customRunText_trims, TrimRight_padding. Qed.

Lemma Read_one_piece (p : list ascii) (q : gmap string (string * list string)) :
  (length p <= 513)%nat ->
  io.Read (Body {| Query := q;
                   Body := {| io.Pending := [p]; io.Broken := false |} |}) 513
  = (p, None).
Proof. intros H. unfold io.Read. simpl. now rewrite firstn_all2. Qed.

(** X9.  Zero bytes at the end of the body do not count: two custom-run
    requests with the same query whose bodies, each arriving in one piece of
    at most 512 bytes, differ only by zero bytes at the end are answered
    alike and leave the same engine; the command text is the body without
    its trailing zero bytes. *)
Theorem trailing_zero_bytes_ignored (env : Env) (e : HTTPEngine)
    (q : gmap string (string * list string)) (p : list ascii) (k : nat) :
  (length p + k <= 512)%nat ->
  let r1 := {| Query := q;
               Body := {| io.Pending := [p]; io.Broken := false |} |} in
  let r2 := {| Query := q;
               Body := {| io.Pending := [p ++ repeat NUL k];
                          io.Broken := false |} |} in
  registerChefCustomRun env r2 e = registerChefCustomRun env r1 e
  /\ customRunText (p ++ repeat NUL k)
     = string_of_list_ascii (bytes.TrimRight p [NUL]).
Proof.
  intros Hlen r1 r2. split.
  - unfold registerChefCustomRun.
    change (checklock r2) with (checklock r1).
    destruct (checklock r1 && ReadRunLock (state e)); [reflexivity|].
    unfold r1, r2. rewrite !Read_one_piece;
      [|lia|rewrite length_app, repeat_length; lia].
    rewrite customRunText_zero_tail.
    assert (H1 : (512 <? length p)%nat = false) by (apply Nat.ltb_ge; lia).
    assert (H2 : (512 <? length (p ++ repeat NUL k))%nat = false).
    { apply Nat.ltb_ge. rewrite length_app, repeat_length. lia. }
    now rewrite H1, H2.
  - now rewrite customRunText_zero_tail, customRunText_trims.
Qed.

Lemma trailing_zero_bytes_ignored_witness :
  registerChefCustomRun sample.env1
    {| Query := ∅;
       Body := {| io.Pending := [sample.text_of "recipe[base]"
                                 ++ repeat NUL 3];
                  io.Broken := false |} |} sample.whitelisted
  = registerChefCustomRun sample.env1
      {| Query := ∅;
         Body := {| io.Pending := [sample.text_of "recipe[base]"];
                    io.Broken := false |} |} sample.whitelisted.
Proof.
  apply (trailing_zero_bytes_ignored sample.env1 sample.whitelisted ∅
           (sample.text_of "recipe[base]") 3).
  simpl. lia.
Defined.

(** What [TrimRight] leaves does not end in a byte of the cutset. *)
Lemma TrimRight_end (s : list ascii) :
  match rev (bytes.TrimRight s [NUL]) with
  | c :: _ => Ascii.eqb c NUL = false
  | [] => True
  end.
Proof.
  induction s as [|c r IH]; simpl; [exact I|].
  destruct (bytes.TrimRight r [NUL]) as [|c' r'] eqn:E.
  - simpl. destruct (Ascii.eqb c NUL) eqn:Ec; simpl; [exact I|].
    exact Ec.
  - simpl in *. destruct (rev r' ++ [c']) as [|x l] eqn:El.
    + now destruct (rev r').
    + simpl. exact IH.
Qed.

Lemma customRunText_matchable (data : list ascii) :
  (length data <= 512)%nat ->
  traffic.unmatchable (customRunText data) = false.
Proof.
  intros Hlen. unfold traffic.unmatchable. apply orb_false_iff. split.
  - apply Nat.ltb_ge. pose proof (customRunText_length data). lia.
  - unfold traffic.endsWithNUL. rewrite customRunText_trims.
    rewrite list_ascii_of_string_of_list_ascii.
    pose proof (TrimRight_end data) as H.
    destruct (rev (bytes.TrimRight data [NUL])); [reflexivity | exact H].
Qed.

(** X10.  A whitelist in use whose entries are all longer than 512 bytes or
    end in a zero byte, the empty whitelist among them, shuts custom runs
    off: no request, forced or not, whatever its body, is answered 200, and
    none changes the engine. *)
Theorem unmatchable_whitelist_admits_nothing (env : Env) (r : Request)
    (e : HTTPEngine) :
  use (whitelists e) = true ->
  forallb traffic.unmatchable (whitelist (whitelists e)) = true ->
  let out := registerChefCustomRun env r e in
  StatusCode (fst out) <> StatusOK /\ snd out = e.
Proof.
  intros Huse Hdead out. unfold out.
  destruct (checklock r && ReadRunLock (state e)) eqn:Hgate.
  { rewrite (gate_shut env r e Hgate). split; [discriminate | reflexivity]. }
  rewrite (gate_open env r e Hgate).
  destruct (io.Read (Body r) 513) as [data err] eqn:HR.
  destruct (checkedCustomRun_cases env r e data err HR)
    as [Hfail [Hbig [Hno _]]].
  destruct (read_failed_dec err) as [Hf | Hf].
  { rewrite (Hfail Hf). split; [discriminate | reflexivity]. }
  destruct (Nat.le_gt_cases (length data) 512) as [Hn | Hn].
  2: { rewrite (Hbig Hf Hn). split; [discriminate | reflexivity]. }
  rewrite (Hno Hf Hn Huse); [split; [discriminate | reflexivity]|].
  intros Hin. rewrite forallb_forall in Hdead.
  specialize (Hdead _ Hin).
  rewrite (customRunText_matchable data Hn) in Hdead. discriminate.
Qed.

Lemma unmatchable_whitelist_admits_nothing_witness :
  StatusCode
    (fst (registerChefCustomRun sample.env1
            (sample.post (Some "true"%string) [sample.text_of "recipe[base]"])
            (SetWhitelist [] sample.idle)))
  <> StatusOK.
Proof.
  destruct (unmatchable_whitelist_admits_nothing sample.env1
              (sample.post (Some "true"%string)
                 [sample.text_of "recipe[base]"])
              (SetWhitelist [] sample.idle)) as [H _];
    [reflexivity | reflexivity | exact H].
Defined.

(** ** Maintenance and interval: the numbers of the path *)

(** X11.  [setChefMaintenance] takes any integer: a text that is no integer
    is answered 400 and changes nothing, but a negative number of minutes is
    accepted like any other and puts the end of the maintenance into the
    past, now - 60 |i|, so that no maintenance is in force (the clock not
    being before the epoch, and 60 i within the range of [int]). *)
Theorem maintenance_takes_any_integer (env : Env) (s : string)
    (e : HTTPEngine) :
  (strconv.Atoi s = None ->
     setChefMaintenance env s e = (replyWith StatusBadRequest Nothing, e))
  /\ (forall i, strconv.Atoi s = Some i -> i < 0 ->
        GoInt.minInt <= i * 60 ->
        0 <= now env <= GoInt.maxInt ->
        let out := setChefMaintenance env s e in
        StatusCode (fst out) = StatusOK
        /\ ReadMaintenanceTimeEnd (state (snd out)) = now env + i * 60
        /\ ReadMaintenanceTimeEnd (state (snd out)) < now env
        /\ InMaintenceMode (now env) (state (snd out)) = false).
Proof.
  split.
  - intros HA. unfold setChefMaintenance. now rewrite HA.
  - intros i HA Hneg Hmul Hnow.
    rewrite (setChefMaintenance_wraps env s i e HA). simpl.
    assert (H1 : GoInt.wrap (i * 60) = i * 60).
    { apply wrap_fits, fits_spec.
      unfold GoInt.minInt, GoInt.maxInt, GoInt.intSize in *. lia. }
    assert (H2 : GoInt.wrap (now env + i * 60) = now env + i * 60).
    { apply wrap_fits, fits_spec.
      unfold GoInt.minInt, GoInt.maxInt, GoInt.intSize in *. lia. }
    unfold ReadMaintenanceTimeEnd, InMaintenceMode. simpl.
    rewrite H1, H2. repeat split; [lia|]. apply Z.ltb_ge. lia.
Qed.

Lemma maintenance_takes_any_integer_witness :
  setChefMaintenance sample.env1 "soon" sample.idle
  = (replyWith StatusBadRequest Nothing, sample.idle)
  /\ ReadMaintenanceTimeEnd
       (state (snd (setChefMaintenance sample.env1 "-10" sample.idle)))
     = 1700000600 + -10 * 60.
Proof.
  split.
  - apply (maintenance_takes_any_integer sample.env1 "soon" sample.idle).
    reflexivity.
  - destruct (proj2 (maintenance_takes_any_integer sample.env1 "-10"
                       sample.idle) (-10)) as [_ [H _]];
      [reflexivity | lia | unfold GoInt.minInt, GoInt.intSize; lia
       | unfold GoInt.maxInt, GoInt.intSize; simpl; lia | exact H].
Defined.

(** X12.  [getChefRunInterval] reports the stored interval in whole minutes,
    the seconds beyond the last full minute dropped: for a stored interval
    of [t >= 0] seconds it prints the [m] with 60 m <= t < 60 m + 60, and so
    0 minutes for every interval under a minute. *)
Theorem interval_reported_in_whole_minutes (e : HTTPEngine) :
  0 <= ReadChefRunTimer (state e) <= GoInt.maxInt ->
  exists m,
    getChefRunInterval e = reply (IntervalJSON m)
    /\ 60 * m <= ReadChefRunTimer (state e) < 60 * m + 60
    /\ (ReadChefRunTimer (state e) < 60 -> m = 0).
Proof.
  intros Ht. set (t := ReadChefRunTimer (state e)) in *.
  exists (t / 60).
  assert (Hq : Z.quot t 60 = t / 60) by (apply Z.quot_div_nonneg; lia).
  assert (Hd : 60 * (t / 60) <= t < 60 * (t / 60) + 60).
  { pose proof (Z.div_mod t 60 ltac:(lia)).
    pose proof (Z.mod_pos_bound t 60 ltac:(lia)). lia. }
  split; [|split; [exact Hd|]].
  - unfold getChefRunInterval, GoInt.div. fold t. rewrite Hq.
    rewrite wrap_fits; [reflexivity|]. apply fits_spec.
    unfold GoInt.minInt, GoInt.maxInt, GoInt.intSize in *.
    assert (0 <= t / 60) by (apply Z.div_pos; lia). lia.
  - intros Hsmall. apply Z.div_small. lia.
Qed.

Lemma interval_reported_in_whole_minutes_witness :
  exists m,
    getChefRunInterval sample.idle = reply (IntervalJSON m)
    /\ 60 * m <= ReadChefRunTimer (state sample.idle) < 60 * m + 60
    /\ (ReadChefRunTimer (state sample.idle) < 60 -> m = 0).
Proof.
  apply (interval_reported_in_whole_minutes sample.idle).
  unfold GoInt.maxInt, GoInt.intSize. simpl. lia.
Defined.

(** ** The chef version and the path of the state file *)

Lemma hasByte_app (c : ascii) (a b : string) :
  gostrings.hasByte c (a +:+ String c b) = true.
Proof.
  induction a as [|x a IH].
  - simpl. now rewrite Ascii.eqb_refl.
  - change (gostrings.hasByte c (String x (a +:+ String c b)) = true).
    cbn [gostrings.hasByte]. rewrite IH. apply orb_true_r.
Qed.

(** X13.  [chefVersion] fails exactly on an exit code other than 0,
    whatever was printed.  On exit code 0 it answers with the chomped second
    word of the output, the words being what single spaces separate, and
    with the chomped output as a whole when there is no space in it. *)
Theorem chefVersion_second_word (Chomp : string -> string)
    (stdout : string) (exitCode : Z) :
  (exitCode <> 0 ->
     statefiles.chefVersion Chomp stdout exitCode
     = (EmptyString, Some "Could not determin chef version"%string))
  /\ (exitCode = 0 -> gostrings.hasByte " " stdout = false ->
        statefiles.chefVersion Chomp stdout exitCode = (Chomp stdout, None))
  /\ (exitCode = 0 ->
      forall a b, gostrings.hasByte " " a = false ->
                  gostrings.hasByte " " b = false ->
        (stdout = a +:+ String " " b ->
           statefiles.chefVersion Chomp stdout exitCode = (Chomp b, None))
        /\ (forall rest, stdout = a +:+ String " " (b +:+ String " " rest) ->
              statefiles.chefVersion Chomp stdout exitCode
              = (Chomp b, None))).
Proof.
  unfold statefiles.chefVersion. split; [|split].
  - intros Hne. apply Z.eqb_neq in Hne. now rewrite Hne.
  - intros -> Hclean. simpl. now rewrite (Split_no_sep _ _ Hclean).
  - intros -> a b Ha Hb. simpl. split.
    + intros ->. rewrite (Split_at_sep a b " " Ha), (Split_no_sep b " " Hb).
      reflexivity.
    + intros rest ->.
      rewrite (Split_at_sep a _ " " Ha), (Split_at_sep b rest " " Hb).
      pose proof (Split_nonempty rest " ").
      destruct (gostrings.Split rest " "); [congruence | reflexivity].
Qed.

Lemma chefVersion_second_word_witness :
  statefiles.chefVersion (fun s => s) "Chef: 12.19.36" 0
  = ("12.19.36"%string, None)
  /\ statefiles.chefVersion (fun s => s) "Chef: 12.19.36" 1
     = (EmptyString, Some "Could not determin chef version"%string).
Proof.
  split.
  - destruct (proj2 (proj2 (chefVersion_second_word (fun s => s)
                              "Chef: 12.19.36" 0)) eq_refl
                "Chef:"%string "12.19.36"%string) as [H _];
      [reflexivity | reflexivity | apply H; reflexivity].
  - apply (chefVersion_second_word (fun s => s) "Chef: 12.19.36" 1). lia.
Defined.

(** A newer client names itself in three words; the second one is taken. *)
Example chefVersion_infra :
  statefiles.chefVersion (fun s => s) "Chef Infra Client: 15.0.300" 0
  = ("Infra"%string, None).
Proof. reflexivity. Qed.

(** X14.  [getStatePath] keeps prefix and file name apart: when the file
    names hold no backslash, equal paths come from equal prefixes and equal
    file names only. *)
Theorem getStatePath_injective (p1 d1 p2 d2 : string) :
  gostrings.hasByte "\" d1 = false ->
  gostrings.hasByte "\" d2 = false ->
  statefiles.getStatePath p1 d1 = statefiles.getStatePath p2 d2 ->
  p1 = p2 /\ d1 = d2.
Proof.
  unfold statefiles.getStatePath. intros H1 H2. revert p2.
  induction p1 as [|c p1 IH]; intros [|c2 p2] Heq; simpl in Heq.
  - inversion Heq. auto.
  - inversion Heq as [[Hc Hd]]. subst c2.
    rewrite Hd in H1. change (gostrings.hasByte "\" (p2 +:+ String "\" d2)
                              = false) in H1.
    rewrite hasByte_app in H1. discriminate.
  - inversion Heq as [[Hc Hd]]. subst c.
    rewrite <- Hd in H2. change (gostrings.hasByte "\" (p1 +:+ String "\" d1)
                                 = false) in H2.
    rewrite hasByte_app in H2. discriminate.
  - inversion Heq as [[Hc Hd]]. destruct (IH p2 Hd) as [-> ->]. auto.
Qed.

Lemma getStatePath_injective_witness :
  "C:\Program Files\chefwaiter"%string = "C:\Program Files\chefwaiter"%string
  /\ "state.json"%string = "state.json"%string.
Proof.
  apply (getStatePath_injective "C:\Program Files\chefwaiter" "state.json"
           "C:\Program Files\chefwaiter" "state.json");
    reflexivity.
Defined.

Example getStatePath_windows :
  statefiles.getStatePath "C:\Program Files\chefwaiter" "state.json"
  = "C:\Program Files\chefwaiter\state.json"%string.
Proof. reflexivity. Qed.
